(** * Property recommender chat bot: the data pipeline and the filter logic

    A shallow embedding of
      - [backend/scripts/processdata.js] (class [DataProcessor]: the field
        extractors, [createPropertyEntry], [mergeData], [filterValidProperties]),
      - [backend/server.js] ([applyFilters]),
      - [backend/services/geminiService.js] ([extractFilters],
        [enhancedFilterExtraction]),
    followed by the properties of these functions.

    Conventions of the embedding.
      - A JavaScript string is a [string]; the model is exact on ASCII text
        (case mapping, [\s], [\w] and [\b] are the ASCII ones).
      - A JavaScript number is the rational it stands for, kept in lowest
        terms ([Q] under [Qred]).  Whatever computes a number ([parseFloat],
        [parseInt], [*], [JSON.parse]) rounds its exact result to the nearest
        binary64 value, ties to even ([Num.round]); comparisons and [%] are
        exact on binary64 values.  [NaN] is the [None] of an [option];
        [Infinity] is [Num.infinity].
      - A value that may be [null] or [undefined] is an [option]; both are
        [None].  The numeric fields of a stored entry are the exception
        ([numeric]): [<=] tells a [null] from a key that is absent.
      - A call that may throw lives in the monad [exc]; [try]/[catch] is
        [try_catch]. *)

From Stdlib Require Import Bool List Ascii String ZArith QArith Qround Qreduction.
From Stdlib Require Import Lia Lqa Permutation.
Import ListNotations.

Close Scope Q_scope.
Close Scope Z_scope.
Local Open Scope string_scope.
Local Open Scope list_scope.
Local Open Scope nat_scope.

Set Implicit Arguments.
Set Warnings "-register-all".

(* ================================================================== *)
(** ** Characters *)

Module Char.

Definition code (c : ascii) : nat := nat_of_ascii c.

Definition between (lo hi c : ascii) : bool :=
  (code lo <=? code c)%nat && (code c <=? code hi)%nat.

Definition isDigit (c : ascii) : bool := between "0" "9" c.
Definition isUpper (c : ascii) : bool := between "A" "Z" c.
Definition isLower (c : ascii) : bool := between "a" "z" c.

(** [\s] on ASCII: TAB, LF, VT, FF, CR and the space. *)
Definition isSpace (c : ascii) : bool :=
  let n := code c in
  ((9 <=? n)%nat && (n <=? 13)%nat) || (n =? 32)%nat.

(** [\w]: letters, digits and the underscore. *)
Definition isWord (c : ascii) : bool :=
  isDigit c || isUpper c || isLower c || Ascii.eqb c "_".

(** The ASCII line terminators, which [.] does not match. *)
Definition isLineTerminator (c : ascii) : bool :=
  (code c =? 10)%nat || (code c =? 13)%nat.

Definition toLower (c : ascii) : ascii :=
  if isUpper c then ascii_of_nat (code c + 32) else c.

Definition toUpper (c : ascii) : ascii :=
  if isLower c then ascii_of_nat (code c - 32) else c.

Definition digitValue (c : ascii) : Z := Z.of_nat (code c - 48).

End Char.

(* ================================================================== *)
(** ** Strings: the methods of [String.prototype] the program calls *)

Module Str.

Fixpoint map (f : ascii -> ascii) (s : string) : string :=
  match s with
  | EmptyString => EmptyString
  | String c t => String (f c) (map f t)
  end.

Definition toLowerCase : string -> string := map Char.toLower.
Definition toUpperCase : string -> string := map Char.toUpper.

(** [s.includes(sub)] *)
Fixpoint includes (sub s : string) : bool :=
  prefix sub s ||
  match s with
  | EmptyString => false
  | String _ t => includes sub t
  end.

Fixpoint trimStart (s : string) : string :=
  match s with
  | String c t => if Char.isSpace c then trimStart t else s
  | EmptyString => EmptyString
  end.

Fixpoint rev_acc (s acc : string) : string :=
  match s with
  | EmptyString => acc
  | String c t => rev_acc t (String c acc)
  end.

Definition rev (s : string) : string := rev_acc s EmptyString.

Definition trimEnd (s : string) : string := rev (trimStart (rev s)).

Definition trim (s : string) : string := trimEnd (trimStart s).

(** The first [n] characters. *)
Definition take (n : nat) (s : string) : string := substring 0 n s.

Fixpoint drop (n : nat) (s : string) : string :=
  match n, s with
  | S k, String _ t => drop k t
  | _, _ => s
  end.

(** [s.split(sep)] for a string separator.  [piece] is the part of the
    current segment read so far (reversed); [skip] counts the characters of
    a separator still to pass over. *)
Fixpoint split_walk (sep : string) (s : string) (skip : nat) (piece : string)
  : list string :=
  match skip with
  | S k =>
      match s with
      | String _ t => split_walk sep t k piece
      | EmptyString => [rev piece]
      end
  | O =>
      match s with
      | EmptyString => [rev piece]
      | String c t =>
          if prefix sep s
          then rev piece :: split_walk sep t (length sep - 1) EmptyString
          else split_walk sep t 0 (String c piece)
      end
  end.

Fixpoint chars (s : string) : list string :=
  match s with
  | EmptyString => []
  | String c t => String c EmptyString :: chars t
  end.

Definition split (sep : string) (s : string) : list string :=
  match sep with
  | EmptyString => chars s
  | _ => split_walk sep s 0 EmptyString
  end.

(** [parts.join(sep)] *)
Definition join (sep : string) (parts : list string) : string :=
  String.concat sep parts.

Definition charAt0 (s : string) : string :=
  match s with
  | String c _ => String c EmptyString
  | EmptyString => EmptyString
  end.

End Str.

(* ================================================================== *)
(** ** Numbers *)

Module Num.

Definition number := Q.

(** An integer literal of the source; all of them are binary64 values. *)
Definition ofZ (z : Z) : number := inject_Z z.

(** [Infinity]: 2^1024 stands for it.  No finite binary64 value reaches it,
    so it compares with them as [Infinity] does, and [round] returns it for
    every result from the overflow threshold on, itself included. *)
Definition infinity : number := inject_Z (2 ^ 1024).

(** [(n / d) / 2^e] as a fraction of two integers. *)
Definition scale (n d e : Z) : Z * Z :=
  if (0 <=? e)%Z then (n, d * 2 ^ e)%Z else (n * 2 ^ (- e), d)%Z.

(** The binary exponent of [n / d], for [n] and [d] positive: the [e] with
    [2^e <= n / d < 2^(e+1)]. *)
Definition exponent (n d : Z) : Z :=
  let e := (Z.log2 n - Z.log2 d)%Z in
  let '(a, b) := scale n d e in
  if (b <=? a)%Z then e else (e - 1)%Z.

(** The integer nearest to [a / b], the even one of two that are as near. *)
Definition nearestEven (a b : Z) : Z :=
  let m := (a / b)%Z in
  match (2 * (a mod b) ?= b)%Z with
  | Lt => m
  | Gt => (m + 1)%Z
  | Eq => if Z.even m then m else (m + 1)%Z
  end.

(** The binary64 value of [n / d], for [n] and [d] positive: a multiple
    [m * 2^e] of the unit in the last place, which is 52 binary places below
    the leading one and not below 2^-1074 (the subnormal values). *)
Definition roundPos (n d : Z) : number :=
  let e := Z.max (exponent n d - 52) (-1074) in
  let '(a, b) := scale n d e in
  let m := nearestEven a b in
  let v := if (0 <=? e)%Z then inject_Z (m * 2 ^ e)
           else Qred (Qmake m (Z.to_pos (2 ^ (- e)))) in
  if Qle_bool infinity v then infinity else v.

(** The binary64 value nearest to the rational [x], ties to even. *)
Definition round (x : Q) : number :=
  match Qnum x with
  | Z0 => 0%Q
  | Zpos n => roundPos (Zpos n) (Zpos (Qden x))
  | Zneg n => Qopp (roundPos (Zpos n) (Zpos (Qden x)))
  end.

(** [a * b] *)
Definition mul (a b : number) : number := round (a * b)%Q.

Definition leb (a b : number) : bool := Qle_bool a b.
Definition ltb (a b : number) : bool := negb (Qle_bool b a).
Definition gtb (a b : number) : bool := ltb b a.
Definition geb (a b : number) : bool := leb b a.
(** [a === b] on two numbers *)
Definition eqb (a b : number) : bool := Qeq_bool a b.

(** Truncation towards zero. *)
Definition trunc (a : number) : Z :=
  if ltb a 0%Q then Qceiling a else Qfloor a.

(** [a % b] for [b] other than zero: [a] less [b] times the truncated
    quotient, which has the sign of [a].  The remainder of two binary64
    values is one, so nothing is rounded. *)
Definition rem (a b : number) : number :=
  Qred (a - b * inject_Z (trunc (a / b)))%Q.

(** Number of characters of [s] that are decimal digits at its start. *)
Fixpoint digitRun (s : string) : nat :=
  match s with
  | String c t => if Char.isDigit c then S (digitRun t) else O
  | EmptyString => O
  end.

(** The value of a run of decimal digits, read after [acc]. *)
Fixpoint digitsValue (acc : Z) (s : string) : Z :=
  match s with
  | String c t =>
      if Char.isDigit c then digitsValue (10 * acc + Char.digitValue c)%Z t
      else acc
  | EmptyString => acc
  end.

(** [parseFloat(s)] on the decimal literals the program passes to it (a run
    of digits and dots left by a clean-up, or a captured [\d+(\.\d+)?]):
    leading white space, then the longest prefix [digits], [digits.],
    [digits.digits] or [.digits], whose decimal value is rounded to
    binary64.  [None] is [NaN].  Signs, exponents and the word [Infinity]
    cannot reach it and are not read. *)
Definition parseFloat (s : string) : option number :=
  let s := Str.trimStart s in
  let n1 := digitRun s in
  let ipart := digitsValue 0%Z s in
  match Str.drop n1 s with
  | String "." t =>
      let n2 := digitRun t in
      if ((n1 =? 0) && (n2 =? 0))%nat then None
      else
        let fpart := digitsValue 0%Z t in
        Some (round (Qmake (ipart * 10 ^ Z.of_nat n2 + fpart)%Z
                           (Z.to_pos (10 ^ Z.of_nat n2)%Z)))
  | _ => if (n1 =? 0)%nat then None else Some (round (inject_Z ipart))
  end.

(** [parseInt(s)] on a run of decimal digits (what [(\d+)] captures): the
    integer they write, rounded to binary64. *)
Definition parseInt (s : string) : option number :=
  let s := Str.trimStart s in
  if (digitRun s =? 0)%nat then None
  else Some (round (inject_Z (digitsValue 0%Z s))).

(** [!x] is false *)
Definition truthy (x : option number) : bool :=
  match x with
  | Some q => negb (eqb q 0%Q)
  | None => false
  end.

End Num.

Abbreviation number := Num.number.

(** Truthiness of a string that may be [null]. *)
Definition truthyStr (x : option string) : bool :=
  match x with
  | Some EmptyString => false
  | Some _ => true
  | None => false
  end.

(** [a === b] on two strings that may be [undefined]. *)
Definition strictEq (a b : option string) : bool :=
  match a, b with
  | Some x, Some y => String.eqb x y
  | None, None => true
  | _, _ => false
  end.

(* ================================================================== *)
(** ** Exceptions *)

Inductive error := TypeError | SyntaxError.

Inductive exc (A : Type) : Type :=
| Ok (a : A)
| Throw (e : error).

Arguments Ok {A} a.
Arguments Throw {A} e.

Definition ret {A} (a : A) : exc A := Ok a.

Definition bind {A B} (c : exc A) (f : A -> exc B) : exc B :=
  match c with
  | Ok a => f a
  | Throw e => Throw e
  end.

(** [try { body } catch (error) { handler }] *)
Definition try_catch {A} (body : exc A) (handler : error -> exc A) : exc A :=
  match body with
  | Ok a => Ok a
  | Throw e => handler e
  end.

Notation "x <- c ;; k" := (bind c (fun x => k))
  (at level 61, c at next level, right associativity).

(** The receiver of a method call: a call on [null] or [undefined] throws. *)
Definition recv (x : option string) : exc string :=
  match x with
  | Some s => Ok s
  | None => Throw TypeError
  end.

Definition returns {A} (c : exc A) : Prop := exists a, c = Ok a.

(* ================================================================== *)
(** ** Regular expressions

    A backtracking matcher with the semantics of ECMAScript's [RegExp]
    (leftmost match, alternatives in order, greedy quantifiers), for the
    constructs the program's patterns use. *)

Module Regex.

(** The members of a character class. *)
Inductive citem :=
| CChr (c : ascii)
| CRng (lo hi : ascii)
| CDigit                       (* \d *)
| CSpace                       (* \s *)
| CWord.                       (* \w *)

Inductive regex :=
| Empty
| Chr (c : ascii)
| AnyChar                                        (* . *)
| Class (negated : bool) (items : list citem)    (* [...] and [^...] *)
| Seq (r1 r2 : regex)
| Alt (r1 r2 : regex)
| Repeat (min : nat) (max : option nat) (r : regex)   (* greedy *)
| Group (n : nat) (r : regex)                    (* the n-th ( ) *)
| Lookahead (r : regex)                          (* (?= ) *)
| Bol                                            (* ^ *)
| Eol                                            (* $ *)
| WordBoundary.                                  (* \b *)

Fixpoint lit (s : string) : regex :=
  match s with
  | EmptyString => Empty
  | String c EmptyString => Chr c
  | String c t => Seq (Chr c) (lit t)
  end.

Fixpoint seqs (rs : list regex) : regex :=
  match rs with
  | [] => Empty
  | [r] => r
  | r :: t => Seq r (seqs t)
  end.

(** [a|b|c]; the empty list is not used. *)
Fixpoint alts (rs : list regex) : regex :=
  match rs with
  | [] => Empty
  | [r] => r
  | r :: t => Alt r (alts t)
  end.

Definition words (ws : list string) : regex := alts (List.map lit ws).

Definition star (r : regex) : regex := Repeat 0 None r.
Definition plus (r : regex) : regex := Repeat 1 None r.
Definition opt (r : regex) : regex := Repeat 0 (Some 1) r.
Definition digit : regex := Class false [CDigit].
Definition space : regex := Class false [CSpace].
Definition wordChar : regex := Class false [CWord].
Definition nonSpace : regex := Class true [CSpace].

(** The capturing groups of a pattern. *)
Fixpoint groups (r : regex) : list nat :=
  match r with
  | Seq r1 r2 | Alt r1 r2 => groups r1 ++ groups r2
  | Repeat _ _ r' | Lookahead r' => groups r'
  | Group n r' => n :: groups r'
  | _ => []
  end.

(** A matcher state: the character before the current position (none at
    the start of the input), the input from the current position on, and
    the captures made so far (latest first). *)
Record mstate := {
  prev : option ascii;
  rest : string;
  caps : list (nat * string)
}.

Definition step (c : ascii) (t : string) (x : mstate) : mstate :=
  {| prev := Some c; rest := t; caps := caps x |}.

Definition setCap (n : nat) (s : string) (x : mstate) : mstate :=
  {| prev := prev x; rest := rest x; caps := (n, s) :: caps x |}.

Definition clearCaps (ns : list nat) (x : mstate) : mstate :=
  {| prev := prev x; rest := rest x;
     caps := List.filter (fun p => negb (existsb (Nat.eqb (fst p)) ns)) (caps x) |}.

Definition itemHas (it : citem) (c : ascii) : bool :=
  match it with
  | CChr a => Ascii.eqb a c
  | CRng lo hi => Char.between lo hi c
  | CDigit => Char.isDigit c
  | CSpace => Char.isSpace c
  | CWord => Char.isWord c
  end.

Definition isWordOpt (c : option ascii) : bool :=
  match c with
  | Some a => Char.isWord a
  | None => false
  end.

Definition head (s : string) : option ascii :=
  match s with
  | String c _ => Some c
  | EmptyString => None
  end.

(** The text starts with the line separator or the paragraph separator
    (U+2028, U+2029), in UTF-8: the two line terminators that are not ASCII. *)
Definition atSeparator (s : string) : bool :=
  match s with
  | String a (String b (String c _)) =>
      (Char.code a =? 226)%nat && (Char.code b =? 128)%nat
      && ((Char.code c =? 168)%nat || (Char.code c =? 169)%nat)
  | _ => false
  end.

Section Matcher.

(** The [i] flag. *)
Variable ignoreCase : bool.

(** Two characters are the same up to the canonical (upper) case. *)
Definition sameChar (a b : ascii) : bool :=
  if ignoreCase then Ascii.eqb (Char.toUpper a) (Char.toUpper b)
  else Ascii.eqb a b.

(** Some member of the class is the same character as [c]. *)
Definition classHas (items : list citem) (c : ascii) : bool :=
  existsb (fun it => itemHas it c) items ||
  (ignoreCase &&
   (existsb (fun it => itemHas it (Char.toLower c)) items ||
    existsb (fun it => itemHas it (Char.toUpper c)) items)).

(** [rmatch r k x]: match [r] at [x], then the continuation [k]. *)
Fixpoint rmatch (r : regex) (k : mstate -> option mstate) (x : mstate)
  {struct r} : option mstate :=
  match r with
  | Empty => k x
  | Chr c =>
      match rest x with
      | String a t => if sameChar a c then k (step a t x) else None
      | EmptyString => None
      end
  | AnyChar =>
      match rest x with
      | String a t =>
          if Char.isLineTerminator a || atSeparator (rest x) then None
          else k (step a t x)
      | EmptyString => None
      end
  | Class negated items =>
      match rest x with
      | String a t =>
          if xorb negated (classHas items a) then k (step a t x) else None
      | EmptyString => None
      end
  | Seq r1 r2 => rmatch r1 (fun y => rmatch r2 k y) x
  | Alt r1 r2 =>
      match rmatch r1 k x with
      | Some z => Some z
      | None => rmatch r2 k x
      end
  | Repeat min max r' =>
      (* [n] bounds the iterations still allowed; an unbounded quantifier
         gets [min] plus the number of characters left, since every
         iteration past the first [min] must consume one. *)
      (fix rep (n min : nat) (x : mstate) {struct n} : option mstate :=
         match n with
         | O => k x
         | S n' =>
             let d := fun y =>
               if (min =? 0)%nat && (length (rest y) =? length (rest x))%nat
               then None
               else rep n' (pred min) y in
             let xr := clearCaps (groups r') x in
             if (min =? 0)%nat
             then match rmatch r' d xr with
                  | Some z => Some z
                  | None => k x
                  end
             else rmatch r' d xr
         end)
        (match max with
         | Some mx => mx
         | None => min + length (rest x)
         end)%nat min x
  | Group n r' =>
      rmatch r'
        (fun y => k (setCap n (Str.take (length (rest x) - length (rest y)) (rest x)) y))
        x
  | Lookahead r' =>
      match rmatch r' (fun y => Some y) x with
      | Some y => k {| prev := prev x; rest := rest x; caps := caps y |}
      | None => None
      end
  | Bol => match prev x with None => k x | Some _ => None end
  | Eol => match rest x with EmptyString => k x | String _ _ => None end
  | WordBoundary =>
      if xorb (isWordOpt (prev x)) (isWordOpt (head (rest x)))
      then k x else None
  end.

(** One attempt at the position of [s] that follows [p]. *)
Definition matchAt (r : regex) (p : option ascii) (s : string) : option mstate :=
  rmatch r (fun y => Some y) {| prev := p; rest := s; caps := [] |}.

End Matcher.

(** A pattern with its flag. *)
Record pattern := { source : regex; flagI : bool }.

(** The result of [exec]: [found] is [match[0]]. *)
Record result := {
  index : nat;
  found : string;
  captures : list (nat * string);
  before : string;      (* reversed text before the match *)
  after : string
}.

(** [match[n]]; [None] when the group took no part in the match. *)
Fixpoint capture (n : nat) (cs : list (nat * string)) : option string :=
  match cs with
  | [] => None
  | (m, s) :: t => if (m =? n)%nat then Some s else capture n t
  end.

Definition group (n : nat) (m : result) : option string :=
  capture n (captures m).

(** The leftmost match: positions are tried from left to right. *)
Fixpoint execFrom (p : pattern) (seen : string) (s : string) (i : nat)
  {struct s} : option result :=
  match matchAt (flagI p) (source p) (head seen) s with
  | Some y =>
      Some {| index := i;
              found := Str.take (length s - length (rest y)) s;
              captures := caps y;
              before := seen;
              after := rest y |}
  | None =>
      match s with
      | EmptyString => None
      | String c t => execFrom p (String c seen) t (S i)
      end
  end.

(** [s.match(p)] for a pattern without the [g] flag. *)
Definition exec (p : pattern) (s : string) : option result :=
  execFrom p EmptyString s 0.

(** [p.test(s)] *)
Definition test (p : pattern) (s : string) : bool :=
  match exec p s with
  | Some _ => true
  | None => false
  end.

(** [s.replace(p, by)] for a pattern without the [g] flag and a
    replacement text without [$]. *)
Definition replaceFirst (p : pattern) (by_ : string) (s : string) : string :=
  match exec p s with
  | Some m => (Str.rev (before m) ++ by_ ++ after m)%string
  | None => s
  end.

(** [s.replace(p, f)] for a pattern with the [g] flag: every match, from
    left to right, gives way to [f] of its text.  [skip] counts the
    characters of the last match still to pass over. *)
Fixpoint replaceWalk (p : pattern) (f : string -> string)
         (pv : option ascii) (s : string) (skip : nat) {struct s} : string :=
  match skip with
  | S k =>
      match s with
      | String c t => replaceWalk p f (Some c) t k
      | EmptyString => EmptyString
      end
  | O =>
      match matchAt (flagI p) (source p) pv s with
      | Some y =>
          let n := (length s - length (rest y))%nat in
          (f (Str.take n s) ++
           match s with
           | String c t =>
               match n with
               | O => String c (replaceWalk p f (Some c) t 0)
               | S k => replaceWalk p f (Some c) t k
               end
           | EmptyString => EmptyString
           end)%string
      | None =>
          match s with
          | String c t => String c (replaceWalk p f (Some c) t 0)
          | EmptyString => EmptyString
          end
      end
  end.

Definition replaceAll (p : pattern) (f : string -> string) (s : string) : string :=
  replaceWalk p f None s 0.

(** [s.split(p)] for a pattern without capturing groups. *)
Fixpoint splitWalk (p : pattern) (pv : option ascii) (s : string)
         (skip : nat) (piece : string) {struct s} : list string :=
  match skip with
  | S k =>
      match s with
      | String c t => splitWalk p (Some c) t k piece
      | EmptyString => [Str.rev piece]
      end
  | O =>
      match s with
      | EmptyString => [Str.rev piece]
      | String c t =>
          match matchAt (flagI p) (source p) pv s with
          | Some y =>
              match (length s - length (rest y))%nat, piece with
              | O, EmptyString => splitWalk p (Some c) t 0 (String c piece)
              | O, _ => Str.rev piece :: splitWalk p (Some c) t 0 (String c EmptyString)
              | S k, _ => Str.rev piece :: splitWalk p (Some c) t k EmptyString
              end
          | None => splitWalk p (Some c) t 0 (String c piece)
          end
      end
  end.

Definition split (p : pattern) (s : string) : list string :=
  match s with
  | EmptyString =>
      match matchAt (flagI p) (source p) None s with
      | Some _ => []
      | None => [EmptyString]
      end
  | _ => splitWalk p None s 0 EmptyString
  end.

End Regex.

Import Regex.

(* ================================================================== *)
(** ** JSON.parse *)

Module Json.

Local Open Scope nat_scope.

Inductive value :=
| Null
| Bool (b : bool)
| Number (n : number)
| Str (s : string)
| Array (items : list value)
| Object (members : list (string * value)).   (* the own properties, in order *)

(** The index a key is, if it is one: the decimal text of an integer below
    2^32 - 1, without leading zeros. *)
Definition indexOf (key : string) : option Z :=
  match key with
  | EmptyString => None
  | String c t =>
      if (Num.digitRun key =? length key)
         && (negb (Ascii.eqb c "0") || (length key =? 1))
      then
        let n := Num.digitsValue 0%Z key in
        if (n <? 4294967295)%Z then Some n else None
      else None
  end.

(** A new key [key] comes before the key [k] when it is an index and [k] is
    a larger one or none. *)
Definition goesBefore (key k : string) : bool :=
  match indexOf key, indexOf k with
  | Some i, Some j => (i <? j)%Z
  | Some _, None => true
  | None, _ => false
  end.

(** The assignment of [v] to the property [key] of an object: a key that is
    there keeps its place and takes the new value; a new key goes last,
    unless it is an index, which goes among the indices, in ascending order,
    before the other keys. *)
Fixpoint setMember (key : string) (v : value) (members : list (string * value))
  : list (string * value) :=
  match members with
  | [] => [(key, v)]
  | (k, w) :: t =>
      if String.eqb k key then (k, v) :: t
      else if goesBefore key k then (key, v) :: members
      else (k, w) :: setMember key v t
  end.

Definition dquote : ascii := ascii_of_nat 34.
Definition backslash : ascii := ascii_of_nat 92.

(** JSON white space: TAB, LF, CR and the space. *)
Definition isWs (c : ascii) : bool :=
  let n := Char.code c in
  (n =? 9) || (n =? 10) || (n =? 13) || (n =? 32).

Fixpoint skipWs (s : string) : string :=
  match s with
  | String c t => if isWs c then skipWs t else s
  | EmptyString => EmptyString
  end.

Definition hexValue (c : ascii) : option nat :=
  if Char.isDigit c then Some (Char.code c - 48)
  else if Char.between "a" "f" c then Some (Char.code c - 87)
  else if Char.between "A" "F" c then Some (Char.code c - 55)
  else None.

(** The text of the code unit [n] (UTF-8). *)
Definition unitText (n : nat) : string :=
  if n <? 128 then String (ascii_of_nat n) EmptyString
  else if n <? 2048 then
    String (ascii_of_nat (192 + n / 64))
      (String (ascii_of_nat (128 + n mod 64)) EmptyString)
  else
    String (ascii_of_nat (224 + n / 4096))
      (String (ascii_of_nat (128 + (n / 64) mod 64))
         (String (ascii_of_nat (128 + n mod 64)) EmptyString)).

(** The characters of a string literal after its opening quote; [acc] is
    the text read so far, reversed. *)
Fixpoint parseChars (s : string) (acc : string) : option (string * string) :=
  match s with
  | EmptyString => None
  | String c t =>
      if Ascii.eqb c dquote then Some (Str.rev acc, t)
      else if Ascii.eqb c backslash then
        match t with
        | String e t' =>
            let simple (x : nat) := parseChars t' (String (ascii_of_nat x) acc) in
            if Ascii.eqb e dquote then simple 34
            else if Ascii.eqb e backslash then simple 92
            else if Ascii.eqb e "/" then simple 47
            else if Ascii.eqb e "b" then simple 8
            else if Ascii.eqb e "f" then simple 12
            else if Ascii.eqb e "n" then simple 10
            else if Ascii.eqb e "r" then simple 13
            else if Ascii.eqb e "t" then simple 9
            else if Ascii.eqb e "u" then
              match t' with
              | String h1 (String h2 (String h3 (String h4 t''))) =>
                  match hexValue h1, hexValue h2, hexValue h3, hexValue h4 with
                  | Some a, Some b, Some c', Some d =>
                      parseChars t''
                        (Str.rev_acc (unitText (((a * 16 + b) * 16 + c') * 16 + d)) acc)
                  | _, _, _, _ => None
                  end
              | _ => None
              end
            else None
        | EmptyString => None
        end
      else if Char.code c <? 32 then None
      else parseChars t (String c acc)
  end.

(** An optional exponent [e], [E] with a sign and digits. *)
Definition parseExponent (s : string) : option (Z * string) :=
  match s with
  | String c t =>
      if Ascii.eqb c "e" || Ascii.eqb c "E" then
        let '(neg, t1) :=
          match t with
          | String "-" u => (true, u)
          | String "+" u => (false, u)
          | _ => (false, t)
          end in
        let n := Num.digitRun t1 in
        if n =? 0 then None
        else
          let e := Num.digitsValue 0%Z t1 in
          Some (if neg then (- e)%Z else e, Str.drop n t1)
      else Some (0%Z, s)
  | EmptyString => Some (0%Z, s)
  end.

(** A number: an optional minus sign, then [0] or a run of digits that does
    not start with [0], then an optional fraction and an optional exponent;
    its decimal value is rounded to binary64. *)
Definition parseNumber (s : string) : option (number * string) :=
  let '(neg, s1) :=
    match s with
    | String "-" t => (true, t)
    | _ => (false, s)
    end in
  let n1 := match s1 with
            | String "0" _ => 1
            | _ => Num.digitRun s1
            end in
  if n1 =? 0 then None
  else
    let ipart := Num.digitsValue 0%Z (Str.take n1 s1) in
    let s2 := Str.drop n1 s1 in
    let frac :=
      match s2 with
      | String "." t =>
          let n2 := Num.digitRun t in
          if n2 =? 0 then None
          else Some (Qmake (ipart * 10 ^ Z.of_nat n2 + Num.digitsValue 0%Z t)%Z
                           (Z.to_pos (10 ^ Z.of_nat n2)%Z),
                     Str.drop n2 t)
      | _ => Some (Num.ofZ ipart, s2)
      end in
    match frac with
    | None => None
    | Some (m, s3) =>
        match parseExponent s3 with
        | None => None
        | Some (e, s4) =>
            let v := Num.round (m * Qpower (10 # 1) e)%Q in
            Some (if neg then Qopp v else v, s4)
        end
    end.

(** A value at the start of [s] (no white space before it), and the text
    after it.  Every call passes a shorter text on, so the length of the
    input is fuel enough. *)
Fixpoint parseValue (fuel : nat) (s : string) {struct fuel}
  : option (value * string) :=
  match fuel with
  | O => None
  | S fuel' =>
      (* the elements of an array after the first, up to the bracket *)
      let elements :=
        fix elements (n : nat) (s : string) (acc : list value) {struct n}
          : option (value * string) :=
          match n with
          | O => None
          | S n' =>
              match skipWs s with
              | String "]" t => Some (Array (List.rev acc), t)
              | String "," t =>
                  match parseValue fuel' (skipWs t) with
                  | Some (v, t') => elements n' t' (v :: acc)
                  | None => None
                  end
              | _ => None
              end
          end in
      (* the members of an object after the first, up to the brace *)
      let members :=
        fix members (n : nat) (s : string) (acc : list (string * value)) {struct n}
          : option (value * string) :=
          match n with
          | O => None
          | S n' =>
              match skipWs s with
              | String "}" t => Some (Object acc, t)
              | String "," t =>
                  match skipWs t with
                  | String q t1 =>
                      if Ascii.eqb q dquote then
                        match parseChars t1 EmptyString with
                        | Some (key, t2) =>
                            match skipWs t2 with
                            | String ":" t3 =>
                                match parseValue fuel' (skipWs t3) with
                                | Some (v, t') =>
                                    members n' t' (setMember key v acc)
                                | None => None
                                end
                            | _ => None
                            end
                        | None => None
                        end
                      else None
                  | EmptyString => None
                  end
              | _ => None
              end
          end in
      if prefix "null" s then Some (Null, Str.drop 4 s)
      else if prefix "true" s then Some (Bool true, Str.drop 4 s)
      else if prefix "false" s then Some (Bool false, Str.drop 5 s)
      else
        match s with
        | String "[" t =>
            match skipWs t with
            | String "]" t' => Some (Array [], t')
            | t1 =>
                match parseValue fuel' t1 with
                | Some (v, t') => elements (length t') t' [v]
                | None => None
                end
            end
        | String "{" t =>
            match skipWs t with
            | String "}" t' => Some (Object [], t')
            | t1 => members (length t1) (String "," t1) []
            end
        | String c t =>
            if Ascii.eqb c dquote then
              match parseChars t EmptyString with
              | Some (str, t') => Some (Str str, t')
              | None => None
              end
            else
              match parseNumber s with
              | Some (n, t') => Some (Number n, t')
              | None => None
              end
        | EmptyString => None
        end
  end.

(** [JSON.parse(text)]: one value between optional white space, or a
    [SyntaxError]. *)
Definition parse (text : string) : exc value :=
  match parseValue (S (length text)) (skipWs text) with
  | Some (v, t) =>
      match skipWs t with
      | EmptyString => Ok v
      | String _ _ => Throw SyntaxError
      end
  | None => Throw SyntaxError
  end.

End Json.

(* ================================================================== *)
(** ** The data model of [processdata.js] *)

(** A row of [project.csv]. *)
Record ProjectRow := {
  p_id : option string;
  p_projectName : option string;
  p_slug : option string;
  p_projectType : option string;
  p_status : option string;
  p_reraId : option string
}.

(** A row of [ProjectAddress.csv]. *)
Record AddressRow := {
  a_projectId : option string;
  a_fullAddress : option string;
  a_pincode : option string
}.

(** A row of [ProjectConfiguration.csv]. *)
Record ConfigurationRow := {
  c_id : option string;
  c_projectId : option string;
  c_type : option string
}.

(** A row of [ProjectConfigurationVariant.csv]. *)
Record VariantRow := {
  v_id : option string;
  v_configurationId : option string;
  v_price : option string;
  v_carpetArea : option string;
  v_aboutProperty : option string;
  v_propertyImages : option string;
  v_floorPlanImage : option string
}.

(** A numeric field of an entry, as the stored object has it: a number,
    [null], or [undefined] when the entry has no such key. *)
Inductive numeric :=
| Undefined
| Null
| Value (n : number).

(** The number a field holds, when it holds one. *)
Definition numberOf (x : numeric) : option number :=
  match x with
  | Value n => Some n
  | Null | Undefined => None
  end.

(** A number or [null], written to a field. *)
Definition stored (x : option number) : numeric :=
  match x with
  | Some n => Value n
  | None => Null
  end.

(** The object literal [createPropertyEntry] returns, which is also the
    shape of the entries read back from the data file. *)
Record Property := {
  id : option string;
  projectName : option string;
  city : option string;
  locality : option string;
  bhk : numeric;
  price : numeric;
  possession : option string;
  area : numeric;
  amenities : list string;
  slug : option string;
  builder : option string;
  fullAddress : option string;
  pincode : option string;
  projectType : option string;
  status : option string;
  reraId : option string;
  projectId : option string;
  configId : option string;
  variantId : option string;
  propertyImages : Json.value;
  floorPlanImage : option string
}.

(** [{ city, locality }], the result of [extractLocationGeneric]. *)
Record Location := {
  loc_city : option string;
  loc_locality : option string
}.

(** [x?.f] *)
Definition optChain {A B} (x : option A) (f : A -> option B) : option B :=
  match x with
  | Some a => f a
  | None => None
  end.

(** [a || b] on strings that may be [undefined]. *)
Definition orElse (a b : option string) : option string :=
  if truthyStr a then a else b.

(** [Array.prototype.forEach] over a callback that updates the state [S]. *)
Fixpoint forEach {A S} (f : S -> A -> exc S) (l : list A) (st : S) : exc S :=
  match l with
  | [] => ret st
  | x :: t => st' <- f st x ;; forEach f t st'
  end.

(** [[...new Set(l)]]: the first occurrence of every element, in order. *)
Fixpoint dedupFrom (seen : list string) (l : list string) : list string :=
  match l with
  | [] => []
  | x :: t =>
      if existsb (String.eqb x) seen then dedupFrom seen t
      else x :: dedupFrom (x :: seen) t
  end.

Definition dedup (l : list string) : list string := dedupFrom [] l.

(* ================================================================== *)
(** ** The field extractors of [DataProcessor] *)

(** [/(\d+)\s*BHK/i] *)
Definition bhkPattern : pattern :=
  {| source := seqs [Group 1 (plus digit); star space; lit "BHK"];
     flagI := true |}.

Definition extractBHKGeneric (configuration : option string) : exc (option number) :=
  if negb (truthyStr configuration) then ret None
  else
    configStr <- recv configuration ;;
    match exec bhkPattern configStr with
    | Some bhkMatch => ret (optChain (group 1 bhkMatch) Num.parseInt)
    | None => ret None
    end.

(** [/[^\d.]/g] *)
Definition notDigitOrDot : pattern :=
  {| source := Class true [CDigit; CChr "."]; flagI := false |}.

Definition clean (s : string) : string :=
  replaceAll notDigitOrDot (fun _ => EmptyString) s.

Definition lakh : number := Num.ofZ 100000.

(** [price <= 200 && price % 10 === 0] *)
Definition looksLikeLakhs (price : number) : bool :=
  Num.leb price (Num.ofZ 200) && Num.eqb (Num.rem price (Num.ofZ 10)) (Num.ofZ 0).

Definition parsePriceGeneric (priceStr : option string) : exc (option number) :=
  if negb (truthyStr priceStr) then ret None
  else
    try_catch
      (str <- recv priceStr ;;
       let cleanPrice := clean str in
       match Num.parseFloat cleanPrice with
       | None => ret None                                   (* isNaN(price) *)
       | Some price =>
           if Num.leb price (Num.ofZ 0) then ret None
           else if Num.ltb price (Num.ofZ 100) then ret None
           else if Num.ltb price (Num.ofZ 1000) then ret (Some (Num.mul price lakh))
           else if Num.ltb price (Num.ofZ 100000) then
             if looksLikeLakhs price
             then ret (Some (Num.mul price lakh))
             else ret (Some price)
           else if Num.gtb price (Num.ofZ 500000000) then ret None
           else ret (Some price)
       end)
      (fun _ => ret None).

Definition parseAreaGeneric (areaStr : option string) : exc (option number) :=
  if negb (truthyStr areaStr) then ret None
  else
    try_catch
      (str <- recv areaStr ;;
       match Num.parseFloat (clean str) with
       | None => ret None
       | Some area =>
           if Num.leb area (Num.ofZ 0) then ret None
           else if Num.ltb area (Num.ofZ 300) then ret None
           else if Num.gtb area (Num.ofZ 5000) then ret None
           else ret (Some area)
       end)
      (fun _ => ret None).

Definition parsePossessionGeneric (status : option string) : exc string :=
  if negb (truthyStr status) then ret "Unknown"
  else
    str <- recv status ;;
    let statusStr := Str.toLowerCase str in
    if Str.includes "ready" statusStr then ret "Ready to Move"
    else if Str.includes "under" statusStr then ret "Under Construction"
    else if Str.includes "new" statusStr then ret "New Launch"
    else ret "Unknown".

(** [/\b(w1|w2|...)\b/] *)
Definition wholeWord (flag : bool) (ws : list string) : pattern :=
  {| source := seqs [WordBoundary; Group 1 (words ws); WordBoundary];
     flagI := flag |}.

Definition looksLikeCity (text : string) : bool :=
  let cityPatterns :=
    [wholeWord true ["mumbai"; "pune"; "bangalore"; "delhi"; "hyderabad";
                     "chennai"; "kolkata"; "ahmedabad"; "surat"; "jaipur"]] in
  existsb (fun pattern => test pattern (Str.toLowerCase text)) cityPatterns.

Definition invalidWords : list string :=
  ["survey"; "plot"; "sector"; "number"; "no"; "road"; "street"; "lane";
   "avenue"; "marg"; "near"; "beside"; "opposite"; "at"; "in"; "area";
   "locality"; "and"; "the"; "a"; "an"; "to"; "of"; "for"; "beside godrej";
   "opposite to mca"; "stadium"; "school"; "college"; "hospital"; "mamurdi";
   "thite"; "nagar"; "sai"].

(** [/\s+/] *)
Definition spaces : pattern := {| source := plus space; flagI := false |}.

(** [/[a-zA-Z]/] *)
Definition aLetter : pattern :=
  {| source := Class false [CRng "a" "z"; CRng "A" "Z"]; flagI := false |}.

(** The second parameter, [city], is not read. *)
Definition isValidLocality (locality : string) (city : option string) : bool :=
  if negb (truthyStr (Some locality)) || (length locality <? 3) then false
  else
    let localityLower := Str.toLowerCase locality in
    let words := Regex.split spaces localityLower in
    let hasValidWords :=
      existsb (fun word => (2 <? length word)
                           && negb (existsb (String.eqb word) invalidWords)) words in
    if negb hasValidWords then false
    else
      let isCity := looksLikeCity localityLower in
      if isCity then false
      else
        let hasLetters := test aLetter locality in
        if negb hasLetters then false
        else true.

(** [/\w\S*/g] *)
Definition aWord : pattern :=
  {| source := seqs [wordChar; star nonSpace]; flagI := false |}.

Definition capitalizeWords (str : string) : string :=
  replaceAll aWord
    (fun txt => (Str.toUpperCase (Str.charAt0 txt) ++ Str.toLowerCase (Str.drop 1 txt))%string)
    str.

Definition cityPatterns : list (pattern * string) :=
  [ (wholeWord false ["mumbai"; "bombay"], "Mumbai");
    (wholeWord false ["pune"; "poona"], "Pune");
    (wholeWord false ["bangalore"; "bengaluru"], "Bangalore");
    (wholeWord false ["delhi"; "new delhi"], "Delhi");
    (wholeWord false ["hyderabad"; "secunderabad"], "Hyderabad");
    (wholeWord false ["chennai"; "madras"], "Chennai");
    (wholeWord false ["kolkata"; "calcutta"], "Kolkata");
    (wholeWord false ["ahmedabad"; "ahmadabad"], "Ahmedabad");
    (wholeWord false ["surat"], "Surat");
    (wholeWord false ["jaipur"], "Jaipur") ].

Definition locationWords : regex :=
  words ["near"; "beside"; "opposite to"; "at"; "in"; "area"; "locality"; "sector"].

(** [(?=,|\.|$)] *)
Definition beforeStop : regex := Lookahead (alts [Chr ","; Chr "."; Eol]).

Definition lowerOrSpace : regex := Class false [CRng "a" "z"; CSpace].
Definition notComma : regex := Class true [CChr ","].
Definition capitalised : regex :=
  Seq (Class false [CRng "A" "Z"]) (plus (Class false [CRng "a" "z"])).

Definition localityPatterns : list pattern :=
  [ (* 1: /(?:near|beside|opposite to|at|in|area|locality|sector)\s+([a-z\s]{3,30})(?=,|\.|$)/i *)
    {| source := seqs [locationWords; plus space;
                       Group 1 (Repeat 3 (Some 30) lowerOrSpace); beforeStop];
       flagI := true |};
    (* 2: /([a-z\s]+)(?:\s+(nagar|colony|...|lane))(?=,|\.|$)/i *)
    {| source := seqs [Group 1 (plus lowerOrSpace);
                       Seq (plus space)
                           (Group 2 (words ["nagar"; "colony"; "society"; "vihar";
                                            "enclave"; "estate"; "park"; "gardens";
                                            "road"; "street"; "lane"]));
                       beforeStop];
       flagI := true |};
    (* 3: /^([^,]{5,50})(?=,?\s*(?:mumbai|pune|...|kolkata))/i *)
    {| source := seqs [Bol; Group 1 (Repeat 5 (Some 50) notComma);
                       Lookahead (seqs [opt (Chr ","); star space;
                                        words ["mumbai"; "pune"; "bangalore"; "delhi";
                                               "hyderabad"; "chennai"; "kolkata"]])];
       flagI := true |};
    (* 4: /\b([A-Z][a-z]+(?:\s+[A-Z][a-z]+){0,})(?=,|\s+(?:mumbai|...|hyderabad))/,
       the star of the source written {0,} *)
    {| source := seqs [WordBoundary;
                       Group 1 (Seq capitalised (star (Seq (plus space) capitalised)));
                       Lookahead (Alt (Chr ",")
                                      (Seq (plus space)
                                           (words ["mumbai"; "pune"; "bangalore";
                                                   "delhi"; "hyderabad"])))];
       flagI := false |};
    (* 5: /(?:survey no\.|plot no\.|sector no\.)\s*[a-z0-9]+\s*,\s*([^,]+)/i *)
    {| source := seqs [words ["survey no."; "plot no."; "sector no."]; star space;
                       plus (Class false [CRng "a" "z"; CRng "0" "9"]); star space;
                       Chr ","; star space; Group 1 (plus notComma)];
       flagI := true |} ].

(** [/^\s*(?:near|beside|opposite to|at|in|area|locality|sector)\s+/i] *)
Definition leadingLocationWord : pattern :=
  {| source := seqs [Bol; star space; locationWords; plus space]; flagI := true |}.

(** The first element of [l] on which [f] gives a result: a [for] loop left
    by [break]. *)
Fixpoint firstSome {A B} (f : A -> option B) (l : list A) : option B :=
  match l with
  | [] => None
  | x :: t =>
      match f x with
      | Some b => Some b
      | None => firstSome f t
      end
  end.

Definition extractLocationGeneric (fullAddress projectName : option string)
  : exc Location :=
  if negb (truthyStr fullAddress) then ret {| loc_city := None; loc_locality := None |}
  else
    address <- recv fullAddress ;;
    let searchText :=
      Str.toLowerCase
        (Str.join " "
           (List.flat_map (fun x => match x with
                                    | Some (String c t) => [String c t]
                                    | _ => []
                                    end)
                          [fullAddress; projectName])) in
    let foundCity :=
      firstSome (fun pc => if test (fst pc) searchText then Some (snd pc) else None)
                cityPatterns in
    let byPattern :=
      firstSome
        (fun pattern =>
           match exec pattern address with
           | Some m =>
               if truthyStr (group 1 m) then
                 match group 1 m with
                 | Some g =>
                     let potentialLocality := Str.trim g in
                     let potentialLocality :=
                       Str.trim
                         (replaceFirst spaces " "
                            (replaceFirst leadingLocationWord EmptyString
                                          potentialLocality)) in
                     if isValidLocality potentialLocality foundCity
                     then Some (capitalizeWords potentialLocality)
                     else None
                 | None => None
                 end
               else None
           | None => None
           end)
        localityPatterns in
    let foundLocality :=
      if negb (truthyStr byPattern) then
        let parts := Str.split "," address in
        match firstSome
                (fun part =>
                   let trimmed := Str.trim part in
                   if truthyStr (Some trimmed) && isValidLocality trimmed foundCity
                   then Some (capitalizeWords trimmed)
                   else None)
                parts with
        | Some found => Some found
        | None => byPattern
        end
      else byPattern in
    ret {| loc_city := foundCity; loc_locality := foundLocality |}.

Definition amenityKeywords : list (string * list string) :=
  [ ("Swimming Pool", ["swimming"; "pool"]);
    ("Gym", ["gym"; "fitness"]);
    ("Park", ["park"; "garden"]);
    ("Club House", ["club"; "clubhouse"]);
    ("Lift", ["lift"; "elevator"]);
    ("Parking", ["parking"; "car park"]);
    ("Play Area", ["play"; "children"]) ].

(** [bhk >= 3], false when [bhk] is [null] *)
Definition atLeast (x : option number) (n : number) : bool :=
  match x with
  | Some q => Num.geb q n
  | None => false
  end.

Definition extractAmenitiesGeneric (aboutProperty : option string) (bhk : option number)
  : exc (list string) :=
  let baseAmenities := ["Security"; "Water Supply"; "Power Backup"] in
  baseAmenities <-
    (if truthyStr aboutProperty then
       str <- recv aboutProperty ;;
       let about := Str.toLowerCase str in
       forEach
         (fun baseAmenities entry =>
            let '(amenity, keywords) := entry in
            if existsb (fun keyword => Str.includes keyword about) keywords
            then ret (baseAmenities ++ [amenity])
            else ret baseAmenities)
         amenityKeywords baseAmenities
     else ret baseAmenities) ;;
  let baseAmenities :=
    if atLeast bhk (Num.ofZ 3)
    then baseAmenities ++ ["Club House"; "Swimming Pool"]
    else baseAmenities in
  ret (dedup baseAmenities).

Definition extractBuilderGeneric (projectName : option string) : exc string :=
  if negb (truthyStr projectName) then ret "Unknown Builder"
  else
    str <- recv projectName ;;
    let name := Str.trim str in
    let words := Str.split " " name in
    ret (if 1 <? List.length words
         then (List.hd EmptyString words ++ " Builders")%string
         else (name ++ " Builders")%string).

(** The pattern of [parseReraId]: a quote, a group of one or more characters
    that are not quotes, a quote; a quote is the double or the single one. *)
Definition quoted : pattern :=
  let quote := Class false [CChr Json.dquote; CChr "'"] in
  let notQuote := Class true [CChr Json.dquote; CChr "'"] in
  {| source := seqs [quote; Group 1 (plus notQuote); quote]; flagI := false |}.

Definition parseReraId (reraId : option string) : exc (option string) :=
  if negb (truthyStr reraId) then ret None
  else
    try_catch
      (str <- recv reraId ;;
       match exec quoted str with
       | Some m => ret (group 1 m)
       | None => ret reraId
       end)
      (fun _ => ret reraId).

(** The pattern of [parseImages]: an opening bracket, a group of any number
    of characters other than line terminators, a closing bracket. *)
Definition bracketed : pattern :=
  {| source := seqs [Chr "["; Group 1 (star AnyChar); Chr "]"]; flagI := false |}.

Definition parseImages (imagesStr : option string) : exc Json.value :=
  if negb (truthyStr imagesStr) then ret (Json.Array [])
  else
    try_catch
      (str <- recv imagesStr ;;
       match exec bracketed str with
       | Some m => Json.parse (found m)
       | None => ret (Json.Array [])
       end)
      (fun _ => ret (Json.Array [])).

(* ================================================================== *)
(** ** The Merger and the Validator *)

Definition createPropertyEntry (project : ProjectRow) (config : ConfigurationRow)
           (variant : option VariantRow) (address : option AddressRow)
  : exc (option Property) :=
  try_catch
    (bhk <- extractBHKGeneric (c_type config) ;;
     price <- parsePriceGeneric (optChain variant v_price) ;;
     area <- parseAreaGeneric (optChain variant v_carpetArea) ;;
     location <- extractLocationGeneric (optChain address a_fullAddress)
                                        (p_projectName project) ;;
     if negb (Num.truthy bhk) || negb (Num.truthy price) || negb (Num.truthy area)
        || negb (truthyStr (loc_city location))
     then ret None
     else
       possession <- parsePossessionGeneric (p_status project) ;;
       amenities <- extractAmenitiesGeneric (optChain variant v_aboutProperty) bhk ;;
       builder <- extractBuilderGeneric (p_projectName project) ;;
       reraId <- parseReraId (p_reraId project) ;;
       propertyImages <- parseImages (optChain variant v_propertyImages) ;;
       ret (Some {|
         id := orElse (optChain variant v_id) (c_id config);
         projectName := p_projectName project;
         city := loc_city location;
         locality := loc_locality location;
         bhk := stored bhk;
         price := stored price;
         possession := Some possession;
         area := stored area;
         amenities := amenities;
         slug := p_slug project;
         builder := Some builder;
         fullAddress := optChain address a_fullAddress;
         pincode := optChain address a_pincode;
         projectType := p_projectType project;
         status := p_status project;
         reraId := reraId;
         projectId := p_id project;
         configId := c_id config;
         variantId := optChain variant v_id;
         propertyImages := propertyImages;
         floorPlanImage := optChain variant v_floorPlanImage
       |}))
    (fun _ => ret None).

(** [a < b], [a > b] on a field that may hold no number: false when it holds
    none (the test [!a] that comes before them has then decided). *)
Definition below (x : option number) (n : number) : bool :=
  match x with
  | Some q => Num.ltb q n
  | None => false
  end.

Definition above (x : option number) (n : number) : bool :=
  match x with
  | Some q => Num.gtb q n
  | None => false
  end.

Definition MIN_REASONABLE_PRICE : number := Num.ofZ 500000.
Definition MAX_REASONABLE_PRICE : number := Num.ofZ 500000000.
Definition MIN_REASONABLE_AREA : number := Num.ofZ 300.
Definition MAX_REASONABLE_AREA : number := Num.ofZ 5000.

(** The callback of the [filter] in [filterValidProperties]. *)
Definition isValidProperty (property : Property) : bool :=
  if negb (Num.truthy (numberOf (price property)))
     || below (numberOf (price property)) MIN_REASONABLE_PRICE
     || above (numberOf (price property)) MAX_REASONABLE_PRICE
  then false
  else if negb (Num.truthy (numberOf (area property)))
          || below (numberOf (area property)) MIN_REASONABLE_AREA
          || above (numberOf (area property)) MAX_REASONABLE_AREA
  then false
  else if negb (Num.truthy (numberOf (bhk property)))
          || below (numberOf (bhk property)) (Num.ofZ 1)
          || above (numberOf (bhk property)) (Num.ofZ 10)
  then false
  else if negb (truthyStr (city property))
  then false
  else true.

Definition filterValidProperties (properties : list Property) : list Property :=
  List.filter isValidProperty properties.

(** [if (property) mergedData.push(property)] *)
Definition pushIf (mergedData : list Property) (property : option Property)
  : list Property :=
  match property with
  | Some p => mergedData ++ [p]
  | None => mergedData
  end.

Section Merger.

Variable addresses : list AddressRow.
Variable configurations : list ConfigurationRow.
Variable variants : list VariantRow.

Definition addressOf (project : ProjectRow) : option AddressRow :=
  List.find (fun addr => strictEq (a_projectId addr) (p_id project)) addresses.

Definition projectConfigs (project : ProjectRow) : list ConfigurationRow :=
  List.filter (fun config => strictEq (c_projectId config) (p_id project))
              configurations.

Definition configVariants (config : ConfigurationRow) : list VariantRow :=
  List.filter (fun variant => strictEq (v_configurationId variant) (c_id config))
              variants.

(** The body of [projectConfigs.forEach(config => ...)]: the drafts of one
    configuration are pushed on [mergedData]. *)
Definition mergeConfig (project : ProjectRow) (address : option AddressRow)
           (mergedData : list Property) (config : ConfigurationRow)
  : exc (list Property) :=
  let configVariants := configVariants config in
  if List.length configVariants =? 0 then
    property <- createPropertyEntry project config None address ;;
    ret (pushIf mergedData property)
  else
    forEach
      (fun mergedData variant =>
         property <- createPropertyEntry project config (Some variant) address ;;
         ret (pushIf mergedData property))
      configVariants mergedData.

(** The body of [this.projects.forEach(project => ...)]. *)
Definition mergeProject (mergedData : list Property) (project : ProjectRow)
  : exc (list Property) :=
  let address := addressOf project in
  let projectConfigs := projectConfigs project in
  forEach (mergeConfig project address) projectConfigs mergedData.

End Merger.

(** [mergeData]: the drafts of every project, then the Validator.  The call
    of [analyzeDataPatterns] that comes first only logs, and fills two sets
    that nothing reads: it is left out, like the logging. *)
Definition mergeDrafts (projects : list ProjectRow) (addresses : list AddressRow)
           (configurations : list ConfigurationRow) (variants : list VariantRow)
  : exc (list Property) :=
  forEach (mergeProject addresses configurations variants) projects [].

Definition mergeData (projects : list ProjectRow) (addresses : list AddressRow)
           (configurations : list ConfigurationRow) (variants : list VariantRow)
  : exc (list Property) :=
  mergedData <- mergeDrafts projects addresses configurations variants ;;
  let validProperties := filterValidProperties mergedData in
  ret validProperties.

(* ================================================================== *)
(** ** The filter object and [applyFilters] of [server.js] *)

Module Filters.

(** The filter object: [None] is an absent key. *)
Record t := {
  city : option string;
  bhk : option number;
  maxPrice : option number;
  locality : option string;
  possession : option string;
  amenities : option (list string)
}.

(** [{}] *)
Definition empty : t :=
  {| city := None; bhk := None; maxPrice := None; locality := None;
     possession := None; amenities := None |}.

End Filters.

(** [field && field.toLowerCase().includes(wanted.toLowerCase())] *)
Definition containsCI (field : option string) (wanted : string) : bool :=
  match field with
  | Some s =>
      truthyStr field && Str.includes (Str.toLowerCase wanted) (Str.toLowerCase s)
  | None => false
  end.

(** [field === n]; neither [null] nor [undefined] is a number. *)
Definition sameNumber (field : numeric) (n : number) : bool :=
  match field with
  | Value q => Num.eqb q n
  | Null | Undefined => false
  end.

(** [field <= n]: the comparison turns [null] into 0 and [undefined] into
    [NaN], which is at most nothing. *)
Definition atMost (field : numeric) (n : number) : bool :=
  match field with
  | Value q => Num.leb q n
  | Null => Num.leb (Num.ofZ 0) n
  | Undefined => false
  end.

(** [x && x !== 'null'] *)
Definition givenAndNotNull (x : option string) : bool :=
  truthyStr x && negb (strictEq x (Some "null")).

Section ApplyFilters.

Variable filters : Filters.t.

(** The five [if] statements of [applyFilters], each a step on [results]. *)

Definition byCity (results : list Property) : list Property :=
  match Filters.city filters with
  | Some wanted =>
      if truthyStr (Some wanted)
      then List.filter (fun property => containsCI (city property) wanted) results
      else results
  | None => results
  end.

Definition byBhk (results : list Property) : list Property :=
  match Filters.bhk filters with
  | Some wanted =>
      if Num.truthy (Some wanted)
      then List.filter (fun property => sameNumber (bhk property) wanted) results
      else results
  | None => results
  end.

Definition byMaxPrice (results : list Property) : list Property :=
  match Filters.maxPrice filters with
  | Some wanted =>
      if Num.truthy (Some wanted)
      then List.filter (fun property => atMost (price property) wanted) results
      else results
  | None => results
  end.

Definition byLocality (results : list Property) : list Property :=
  match Filters.locality filters with
  | Some wanted =>
      if givenAndNotNull (Some wanted)
      then List.filter (fun property => containsCI (locality property) wanted) results
      else results
  | None => results
  end.

Definition byPossession (results : list Property) : list Property :=
  match Filters.possession filters with
  | Some wanted =>
      if givenAndNotNull (Some wanted)
      then List.filter (fun property => containsCI (possession property) wanted) results
      else results
  | None => results
  end.

Definition applyFilters (properties : list Property) : list Property :=
  let results := properties in
  let results := byCity results in
  let results := byBhk results in
  let results := byMaxPrice results in
  let results := byLocality results in
  let results := byPossession results in
  results.

End ApplyFilters.

(* ================================================================== *)
(** ** [geminiService.js]: the Fallback Parser and [extractFilters] *)

Definition cities : list string :=
  ["pune"; "mumbai"; "bangalore"; "delhi"; "hyderabad"; "chennai"].

(** [/(\d)\s*word/i] *)
Definition digitThen (r : regex) : pattern :=
  {| source := seqs [Group 1 digit; star space; r]; flagI := true |}.

Definition bhkPatterns : list pattern :=
  [ digitThen (lit "bhk");
    digitThen (lit "bedroom");
    digitThen (lit "bed");
    (* /(\d)\s*b\/?h\/?k/i *)
    digitThen (seqs [Chr "b"; opt (Chr "/"); Chr "h"; opt (Chr "/"); Chr "k"]) ].

(** The rupee sign, as the three bytes of its UTF-8 form. *)
Definition rupee : string :=
  String (ascii_of_nat 226) (String (ascii_of_nat 130)
    (String (ascii_of_nat 185) EmptyString)).

(** [(\d+(?:\.\d+)?)] as group 1 *)
Definition amountGroup : regex :=
  Group 1 (Seq (plus digit) (opt (Seq (Chr ".") (plus digit)))).

(** [/lead\s*[rupee]?\s*(\d+(?:\.\d+)?)\s*(unit1|unit2)/i] *)
Definition budgetAfter (lead : string) (units : list string) : pattern :=
  {| source := seqs [lit lead; star space; opt (lit rupee); star space;
                     amountGroup; star space; Group 2 (words units)];
     flagI := true |}.

(** [/(\d+(?:\.\d+)?)\s*(unit1|unit2)/i] *)
Definition bareBudget (units : list string) : pattern :=
  {| source := seqs [amountGroup; star space; Group 2 (words units)];
     flagI := true |}.

Definition budgetPatterns : list pattern :=
  [ budgetAfter "under" ["cr"; "crore"];
    budgetAfter "upto" ["cr"; "crore"];
    budgetAfter "below" ["cr"; "crore"];
    budgetAfter "under" ["lakh"; "lac"];
    bareBudget ["cr"; "crore"];
    bareBudget ["lakh"; "lac"] ].

Definition localities : list string :=
  ["chembur"; "shivajinagar"; "ashoknagar"; "model colony"; "sindhi society";
   "wakad"; "baner"; "hinjewadi"; "kharadi"; "kothrud"; "andheri"; "bandra"].

(** [(unit === 'cr' || unit === 'crore') ? amount * 10000000 : amount * 100000] *)
Definition toRupees (amount : number) (unit : string) : number :=
  if String.eqb unit "cr" || String.eqb unit "crore"
  then Num.mul amount (Num.ofZ 10000000)
  else Num.mul amount (Num.ofZ 100000).

Definition enhancedFilterExtraction (message : string) : Filters.t :=
  let lowerMessage := Str.toLowerCase message in
  let city :=
    firstSome (fun city => if Str.includes city lowerMessage then Some city else None)
              cities in
  let bhk :=
    match firstSome (fun pattern => exec pattern lowerMessage) bhkPatterns with
    | Some m => optChain (group 1 m) Num.parseInt
    | None => None
    end in
  let maxPrice :=
    match firstSome (fun pattern => exec pattern lowerMessage) budgetPatterns with
    | Some m =>
        match optChain (group 1 m) Num.parseFloat, group 2 m with
        | Some amount, Some u => Some (toRupees amount (Str.toLowerCase u))
        | _, _ => None
        end
    | None => None
    end in
  let locality :=
    firstSome (fun locality =>
                 if Str.includes locality lowerMessage then Some locality else None)
              localities in
  let possession :=
    if Str.includes "ready" lowerMessage || Str.includes "move in" lowerMessage
    then Some "Ready to Move"
    else if Str.includes "under construction" lowerMessage
    then Some "Under Construction"
    else None in
  {| Filters.city := city; Filters.bhk := bhk; Filters.maxPrice := maxPrice;
     Filters.locality := locality; Filters.possession := possession;
     Filters.amenities := None |}.

Definition specificKeywords : list string :=
  ["address of"; "details of"; "information about"; "show me";
   "tell me about"; "where is"; "location of"; "full address of"].

Definition isSpecificQuery (userMessage : string) : bool :=
  let lowerMessage := Str.toLowerCase userMessage in
  existsb (fun keyword => Str.includes keyword lowerMessage) specificKeywords.

(** What [extractFilters] invokes, in order. *)
Inductive invocation :=
| UseGroqLLM (userMessage : string)
| EnhancedFilterExtraction (message : string).

Section ExtractFilters.

(** [useGroqLLM]: the call to the external model, which answers with a
    filter object or throws. *)
Variable useGroqLLM : string -> exc Filters.t.

(** The filter object returned, with the invocations made on the way. *)
Definition extractFilters (userMessage : string) : list invocation * Filters.t :=
  if isSpecificQuery userMessage then ([], Filters.empty)
  else
    match useGroqLLM userMessage with
    | Ok filters => ([UseGroqLLM userMessage], filters)
    | Throw _ =>
        ([UseGroqLLM userMessage; EnhancedFilterExtraction userMessage],
         enhancedFilterExtraction userMessage)
    end.

End ExtractFilters.

(* ================================================================== *)
(** ** The vocabulary of the properties *)

(** [x] is a number of the closed interval from [lo] to [hi]. *)
Definition inRange (lo hi : Z) (x : option number) : Prop :=
  exists q, x = Some q /\ (inject_Z lo <= q)%Q /\ (q <= inject_Z hi)%Q.

(** The invariant of the validated collection. *)
Definition meetsInvariant (p : Property) : Prop :=
  city p <> None /\
  inRange 1 10 (numberOf (bhk p)) /\
  inRange 300 5000 (numberOf (area p)) /\
  inRange 500000 500000000 (numberOf (price p)).

Definition isDigitOrDot (c : ascii) : bool := Char.isDigit c || Ascii.eqb "." c.

Fixpoint keep (f : ascii -> bool) (s : string) : string :=
  match s with
  | EmptyString => EmptyString
  | String c t => if f c then String c (keep f t) else keep f t
  end.

Definition divisibleBy10 (v : number) : Prop :=
  exists k : Z, (v == inject_Z (10 * k))%Q.

Definition optList {A} (o : option A) : list A :=
  match o with
  | Some a => [a]
  | None => []
  end.

(** The value an extractor returns, [None] when it is [null] (or throws). *)
Definition valueOf {A} (c : exc (option A)) : option A :=
  match c with
  | Ok r => r
  | Throw _ => None
  end.

Definition created (project : ProjectRow) (config : ConfigurationRow)
           (variant : option VariantRow) (address : option AddressRow)
  : option Property :=
  valueOf (createPropertyEntry project config variant address).

Definition cityOf (project : ProjectRow) (address : option AddressRow) : option string :=
  match extractLocationGeneric (optChain address a_fullAddress) (p_projectName project) with
  | Ok location => loc_city location
  | Throw _ => None
  end.

(** The four essential fields of a candidate all resolve. *)
Definition resolved (project : ProjectRow) (config : ConfigurationRow)
           (variant : option VariantRow) (address : option AddressRow) : bool :=
  Num.truthy (valueOf (extractBHKGeneric (c_type config)))
  && Num.truthy (valueOf (parsePriceGeneric (optChain variant v_price)))
  && Num.truthy (valueOf (parseAreaGeneric (optChain variant v_carpetArea)))
  && truthyStr (cityOf project address).

(** The fields of an entry that are read off the project, its address and
    the configuration. *)
Definition nonVariantFields (p : Property) :=
  (projectName p, city p, locality p, bhk p, possession p, slug p, builder p,
   (fullAddress p, pincode p, projectType p, status p, reraId p, projectId p,
    configId p)).

(** A key of the filter object constrains when it is present with a truthy
    value; [locality] and [possession] also when their text is not [null]. *)
Definition textKey (x : option string) : option string :=
  if truthyStr x then x else None.

Definition numberKey (x : option number) : option number :=
  if Num.truthy x then x else None.

Definition labelKey (x : option string) : option string :=
  if givenAndNotNull x then x else None.

(** The predicate of a key, or no constraint. *)
Definition holds {A} (key : option A) (test : A -> bool) : bool :=
  match key with
  | Some wanted => test wanted
  | None => true
  end.

(** The conjunction of the predicates of the keys that constrain. *)
Definition satisfies (filters : Filters.t) (p : Property) : bool :=
  holds (textKey (Filters.city filters)) (containsCI (city p))
  && holds (numberKey (Filters.bhk filters)) (sameNumber (bhk p))
  && holds (numberKey (Filters.maxPrice filters)) (atMost (price p))
  && holds (labelKey (Filters.locality filters)) (containsCI (locality p))
  && holds (labelKey (Filters.possession filters)) (containsCI (possession p)).

(** The filter object without the keys that do not constrain. *)
Definition constrainingKeys (filters : Filters.t) : Filters.t :=
  {| Filters.city := textKey (Filters.city filters);
     Filters.bhk := numberKey (Filters.bhk filters);
     Filters.maxPrice := numberKey (Filters.maxPrice filters);
     Filters.locality := labelKey (Filters.locality filters);
     Filters.possession := labelKey (Filters.possession filters);
     Filters.amenities := Filters.amenities filters |}.

(** An entry of which only the city, the bhk and the price are given. *)
Definition entry (c : string) (b p : Z) : Property :=
  {| id := None; projectName := None; city := Some c; locality := None;
     bhk := Value (Num.ofZ b); price := Value (Num.ofZ p); possession := None;
     area := Undefined; amenities := []; slug := None; builder := None;
     fullAddress := None; pincode := None; projectType := None; status := None;
     reraId := None; projectId := None; configId := None; variantId := None;
     propertyImages := Json.Null; floorPlanImage := None |}.

Definition withLocality (l : string) (p : Property) : Property :=
  {| id := id p; projectName := projectName p; city := city p; locality := Some l;
     bhk := bhk p; price := price p; possession := possession p;
     area := area p; amenities := amenities p; slug := slug p; builder := builder p;
     fullAddress := fullAddress p; pincode := pincode p;
     projectType := projectType p; status := status p;
     reraId := reraId p; projectId := projectId p; configId := configId p;
     variantId := variantId p;
     propertyImages := propertyImages p; floorPlanImage := floorPlanImage p |}.

Definition withPrice (x : numeric) (p : Property) : Property :=
  {| id := id p; projectName := projectName p; city := city p;
     locality := locality p; bhk := bhk p; price := x; possession := possession p;
     area := area p; amenities := amenities p; slug := slug p; builder := builder p;
     fullAddress := fullAddress p; pincode := pincode p;
     projectType := projectType p; status := status p;
     reraId := reraId p; projectId := projectId p; configId := configId p;
     variantId := variantId p;
     propertyImages := propertyImages p; floorPlanImage := floorPlanImage p |}.

(** The steps of [applyFilters], in the order of the source. *)
Definition filterSteps (filters : Filters.t) : list (list Property -> list Property) :=
  [byCity filters; byBhk filters; byMaxPrice filters; byLocality filters;
   byPossession filters].

Definition runSteps (steps : list (list Property -> list Property))
           (properties : list Property) : list Property :=
  fold_left (fun results step => step results) steps properties.

(** A step that keeps the entries passing a test of its own. *)
Definition isFilter (step : list Property -> list Property) : Prop :=
  exists test, forall l, step l = List.filter test l.

Definition sampleFilters : Filters.t :=
  {| Filters.city := Some "pune"; Filters.bhk := Some (Num.ofZ 2);
     Filters.maxPrice := Some (Num.ofZ 10000000);
     Filters.locality := None; Filters.possession := None; Filters.amenities := None |}.

(** Sample rows: a project in Pune with one two-bedroom configuration. *)
Definition sampleProject : ProjectRow :=
  {| p_id := Some "p1"; p_projectName := Some "Godrej Woods";
     p_slug := Some "godrej-woods"; p_projectType := Some "RESIDENTIAL";
     p_status := Some "READY_TO_MOVE"; p_reraId := Some "P99000056045" |}.

Definition sampleAddress : AddressRow :=
  {| a_projectId := Some "p1"; a_fullAddress := Some "Survey No. 12, Wakad, Pune";
     a_pincode := Some "411057" |}.

Definition sampleConfig : ConfigurationRow :=
  {| c_id := Some "c1"; c_projectId := Some "p1"; c_type := Some "2BHK" |}.

Definition sampleVariant (variantId priceText : string) : VariantRow :=
  {| v_id := Some variantId; v_configurationId := Some "c1";
     v_price := Some priceText; v_carpetArea := Some "850";
     v_aboutProperty := Some "gym and parking"; v_propertyImages := None;
     v_floorPlanImage := None |}.

(* ================================================================== *)
(** * Properties *)

(** ** Numbers, and the Validator *)

(** [Num.round] at work: an integer of up to 53 bits is kept; 2^53 + 1 is
    half way between its two neighbours and goes to the even one, 2^53;
    2^53 + 3 goes to 2^53 + 4; one tenth becomes the binary64 value written
    0.1; half of the least subnormal value goes to zero, anything above it to
    that value, 2^-1074; and the overflow threshold, 2^1024 - 2^970, goes to
    [Infinity], as [Infinity] itself does. *)
Lemma round_examples :
  Num.round (inject_Z 9007199254740991) = inject_Z 9007199254740991 /\
  Num.round (inject_Z 9007199254740993) = inject_Z 9007199254740992 /\
  Num.round (inject_Z 9007199254740995) = inject_Z 9007199254740996 /\
  Num.round (1 # 10)%Q = (3602879701896397 # 36028797018963968)%Q /\
  Num.round (Qmake 1 (Z.to_pos (2 ^ 1075))) = 0%Q /\
  Num.round (Qmake 3 (Z.to_pos (2 ^ 1076))) = Qmake 1 (Z.to_pos (2 ^ 1074)) /\
  Num.round (inject_Z (2 ^ 1024 - 2 ^ 970)) = Num.infinity /\
  Num.round (inject_Z (2 ^ 1024 - 2 ^ 970 - 1)) = inject_Z (2 ^ 1024 - 2 ^ 971) /\
  Num.mul Num.infinity (inject_Z 100000) = Num.infinity.
Proof. vm_compute. repeat split; reflexivity. Qed.

Lemma num_leb_le (a b : number) : Num.leb a b = true <-> (a <= b)%Q.
Proof. apply Qle_bool_iff. Qed.

Lemma num_ltb_lt (a b : number) : Num.ltb a b = true <-> (a < b)%Q.
Proof.
  unfold Num.ltb. rewrite negb_true_iff.
  split; intros H.
  - apply Qnot_le_lt. intros Hle. apply Qle_bool_iff in Hle. congruence.
  - destruct (Qle_bool b a) eqn:E; [|reflexivity].
    apply Qle_bool_iff in E. exfalso. apply (Qlt_not_le _ _ H E).
Qed.

Lemma num_gtb_gt (a b : number) : Num.gtb a b = true <-> (b < a)%Q.
Proof. apply num_ltb_lt. Qed.

Lemma num_leb_gt (a b : number) : Num.leb a b = false <-> (b < a)%Q.
Proof.
  rewrite <- num_ltb_lt. unfold Num.ltb, Num.leb.
  destruct (Qle_bool a b); simpl; split; congruence.
Qed.

Lemma num_ltb_ge (a b : number) : Num.ltb a b = false <-> (b <= a)%Q.
Proof.
  rewrite <- num_leb_le. unfold Num.ltb, Num.leb.
  destruct (Qle_bool b a); simpl; split; congruence.
Qed.

Lemma num_gtb_le (a b : number) : Num.gtb a b = false <-> (a <= b)%Q.
Proof. apply num_ltb_ge. Qed.

Lemma num_eqb_eq (a b : number) : Num.eqb a b = true <-> (a == b)%Q.
Proof. apply Qeq_bool_iff. Qed.

Lemma inRange_checks (lo hi : Z) (x : option number) :
  (0 < lo)%Z ->
  negb (Num.truthy x) || below x (Num.ofZ lo) || above x (Num.ofZ hi) = false
  <-> inRange lo hi x.
Proof.
  intros Hlo. unfold inRange. destruct x as [q|]; simpl.
  - rewrite !orb_false_iff, negb_false_iff, negb_true_iff.
    fold (Num.ltb q (Num.ofZ lo)). fold (Num.gtb q (Num.ofZ hi)).
    rewrite num_ltb_ge, num_gtb_le. split.
    + intros [[_ H1] H2]. exists q. auto.
    + intros [q' [E [H1 H2]]]. inversion E; subst q'. repeat split; auto.
      destruct (Num.eqb q 0%Q) eqn:E0; [|reflexivity].
      apply num_eqb_eq in E0. rewrite E0 in H1.
      exfalso. change 0%Q with (inject_Z 0) in H1. rewrite <- Zle_Qle in H1. lia.
  - split; [discriminate|]. intros [q [E _]]. discriminate.
Qed.

Lemma isValidProperty_invariant (p : Property) :
  isValidProperty p = true <-> meetsInvariant p /\ city p <> Some EmptyString.
Proof.
  unfold isValidProperty, meetsInvariant.
  pose proof (@inRange_checks 500000 500000000 (numberOf (price p)) eq_refl) as Hp.
  pose proof (@inRange_checks 300 5000 (numberOf (area p)) eq_refl) as Ha.
  pose proof (@inRange_checks 1 10 (numberOf (bhk p)) eq_refl) as Hb.
  unfold MIN_REASONABLE_PRICE, MAX_REASONABLE_PRICE, MIN_REASONABLE_AREA,
    MAX_REASONABLE_AREA.
  destruct (negb (Num.truthy (numberOf (price p))) || _ || _).
  { split; [discriminate|]. intros [(_ & _ & _ & H) _]. apply Hp in H. discriminate. }
  destruct (negb (Num.truthy (numberOf (area p))) || _ || _).
  { split; [discriminate|]. intros [(_ & _ & H & _) _]. apply Ha in H. discriminate. }
  destruct (negb (Num.truthy (numberOf (bhk p))) || _ || _).
  { split; [discriminate|]. intros [(_ & H & _ & _) _]. apply Hb in H. discriminate. }
  destruct (city p) as [[|c t]|]; simpl.
  - split; [discriminate|]. intros [_ H]. congruence.
  - split; [|reflexivity]. intros _.
    repeat split; try discriminate; [apply Hb | apply Ha | apply Hp]; reflexivity.
  - split; [discriminate|]. intros [[H _] _]. congruence.
Qed.

(** C1.  Every entry of the validated collection, the output of
    [filterValidProperties], is an entry of its input with a non-null city,
    a bhk in [1,10], an area in [300,5000] and a price in
    [500000,500000000].  An entry of the input that fails one of these
    checks is dropped: it is not in the output.  An entry that passes them
    all, its city not the empty text, is kept. *)
Theorem filterValidProperties_invariant :
  forall (properties : list Property) (p : Property),
    (In p (filterValidProperties properties) -> In p properties /\ meetsInvariant p) /\
    (In p properties -> ~ meetsInvariant p -> ~ In p (filterValidProperties properties)) /\
    (In p properties -> meetsInvariant p -> city p <> Some EmptyString ->
     In p (filterValidProperties properties)).
Proof.
  intros properties p. unfold filterValidProperties.
  rewrite filter_In, isValidProperty_invariant.
  split; [|split].
  - intros (Hin & Hinv & _). auto.
  - intros _ Hn (_ & Hinv & _). contradiction.
  - intros Hin Hinv Hc. auto.
Qed.

(* ================================================================== *)
(** ** [parsePriceGeneric] *)

Lemma replaceWalk_notDigitOrDot (s : string) :
  forall pv, replaceWalk notDigitOrDot (fun _ => EmptyString) pv s 0 = keep isDigitOrDot s.
Proof.
  induction s as [|c t IH]; intros pv; [reflexivity|].
  cbn [replaceWalk keep].
  unfold matchAt, notDigitOrDot; cbn [source flagI rmatch rest].
  unfold classHas, isDigitOrDot; cbn [existsb itemHas andb].
  rewrite !orb_false_r.
  destruct (Char.isDigit c || Ascii.eqb "." c)%bool eqn:E; cbn [xorb negb].
  - f_equal. apply IH.
  - cbn [step rest].
    replace (length (String c t) - length t) with 1 by (cbn [length]; lia).
    cbn [Str.take substring append]. apply IH.
Qed.

(** The clean-up of [parsePriceGeneric] and [parseAreaGeneric] keeps the
    digits and the dots of its argument, in order, and nothing else. *)
Lemma clean_keep (s : string) : clean s = keep isDigitOrDot s.
Proof. apply replaceWalk_notDigitOrDot. Qed.

Lemma trunc_inject (k : Z) : Num.trunc (inject_Z k) = k.
Proof.
  unfold Num.trunc. destruct (Num.ltb (inject_Z k) 0%Q).
  - apply Qceiling_Z.
  - apply Qfloor_Z.
Qed.

Lemma trunc_eq (a b : number) : (a == b)%Q -> Num.trunc a = Num.trunc b.
Proof.
  intros H. unfold Num.trunc, Num.ltb. rewrite H.
  destruct (negb (Qle_bool 0 b)); [apply Qceiling_comp | apply Qfloor_comp]; exact H.
Qed.

Lemma rem_10_zero (v : number) :
  (Num.rem v (Num.ofZ 10) == 0)%Q <-> divisibleBy10 v.
Proof.
  unfold Num.rem, Num.ofZ, divisibleBy10.
  rewrite Qred_correct. split.
  - intros H. exists (Num.trunc (v / inject_Z 10)%Q).
    rewrite inject_Z_mult. lra.
  - intros [k H].
    assert (v / inject_Z 10 == inject_Z k)%Q as Hk.
    { rewrite H, inject_Z_mult. field. }
    rewrite (trunc_eq Hk), trunc_inject, H, inject_Z_mult. ring.
Qed.

(** The test of the lakh heuristic: at most 200 and divisible by 10. *)
Lemma looksLikeLakhs_spec (v : number) :
  looksLikeLakhs v = true <-> (v <= inject_Z 200)%Q /\ divisibleBy10 v.
Proof.
  unfold looksLikeLakhs. rewrite andb_true_iff.
  rewrite <- rem_10_zero. unfold Num.leb, Num.eqb, Num.ofZ.
  rewrite Qle_bool_iff, Qeq_bool_iff. reflexivity.
Qed.

(** No price from 1000 on passes the test of the lakh heuristic. *)
Lemma looksLikeLakhs_from_1000 (v : number) :
  (inject_Z 1000 <= v)%Q -> looksLikeLakhs v = false.
Proof.
  intros H. unfold looksLikeLakhs.
  destruct (Num.leb v (Num.ofZ 200)) eqn:E; [|reflexivity].
  apply num_leb_le in E. unfold Num.ofZ in E.
  exfalso. unfold inject_Z in *. lra.
Qed.

(** The branches of [parsePriceGeneric] on the value read by [parseFloat]. *)
Lemma parsePriceGeneric_value (priceStr : string) (value : number) :
  Num.parseFloat (keep isDigitOrDot priceStr) = Some value ->
  parsePriceGeneric (Some priceStr)
  = Ok (if Num.leb value (Num.ofZ 0) then None
        else if Num.ltb value (Num.ofZ 100) then None
        else if Num.ltb value (Num.ofZ 1000) then Some (Num.mul value lakh)
        else if Num.ltb value (Num.ofZ 100000) then
               if looksLikeLakhs value then Some (Num.mul value lakh) else Some value
        else if Num.gtb value (Num.ofZ 500000000) then None
        else Some value).
Proof.
  intros Hv. unfold parsePriceGeneric.
  destruct priceStr as [|c t]; [discriminate Hv|].
  cbn [truthyStr negb recv bind]. rewrite clean_keep, Hv.
  repeat match goal with |- context [if ?b then _ else _] => destruct b end;
    reflexivity.
Qed.

Ltac order_cases :=
  repeat match goal with
         | |- context [Num.leb ?a ?b] =>
             let E := fresh "E" in
             destruct (Num.leb a b) eqn:E;
             [apply num_leb_le in E | apply num_leb_gt in E]
         | |- context [Num.ltb ?a ?b] =>
             let E := fresh "E" in
             destruct (Num.ltb a b) eqn:E;
             [apply num_ltb_lt in E | apply num_ltb_ge in E]
         | |- context [Num.gtb ?a ?b] =>
             let E := fresh "E" in
             destruct (Num.gtb a b) eqn:E;
             [apply num_gtb_gt in E | apply num_gtb_le in E]
         end.

(** In the band from 1000 to 100000 the price comes back as it is: no value
    of the band is at most 200. *)
Lemma parsePriceGeneric_band_1000_100000 (priceStr : string) (value : number) :
  Num.parseFloat (keep isDigitOrDot priceStr) = Some value ->
  (inject_Z 1000 <= value)%Q -> (value < inject_Z 100000)%Q ->
  parsePriceGeneric (Some priceStr) = Ok (Some value).
Proof.
  intros Hv H1 H2. rewrite (parsePriceGeneric_value _ Hv), (looksLikeLakhs_from_1000 H1).
  unfold Num.ofZ. order_cases; try reflexivity; exfalso; unfold inject_Z in *; lra.
Qed.

(** The number read and the product are binary64 values.  128.2 is read as
    the binary64 value nearest to it, and its product by 100000 is rounded
    once more, to 12819999.999999998; the nineteen digits of
    99.99999999999999999 are read as 100, which is in the band of the lakhs. *)
Lemma parsePriceGeneric_binary64 :
  Num.parseFloat "128.2" = Some (2255318250894131 # 17592186044416)%Q /\
  parsePriceGeneric (Some "128.2") = Ok (Some (6882685091839999 # 536870912)%Q) /\
  Num.parseFloat "99.99999999999999999" = Some (inject_Z 100) /\
  parsePriceGeneric (Some "99.99999999999999999") = Ok (Some (inject_Z 10000000)).
Proof. vm_compute. repeat split; reflexivity. Qed.

(** C2.  [parsePriceGeneric] reads a number off the digits and dots of its
    argument (all other characters are stripped).  With [value] that number,
    the binary64 value [parseFloat] returns: below 100 the result is [null];
    from 100 up to 1000, [value] times 100000, the product of the code
    ([Num.mul], rounded to binary64); from 1000 up to 100000, [value] times
    100000 only if [value] is at most 200 and divisible by 10, else [value]
    as it is; above 500000000, [null]; and otherwise [value] unchanged. *)
Theorem parsePriceGeneric_bands :
  forall (priceStr : string) (value : number),
    Num.parseFloat (keep isDigitOrDot priceStr) = Some value ->
    ((value < inject_Z 100)%Q ->
       parsePriceGeneric (Some priceStr) = Ok None) /\
    ((inject_Z 100 <= value)%Q -> (value < inject_Z 1000)%Q ->
       parsePriceGeneric (Some priceStr) = Ok (Some (Num.mul value (inject_Z 100000)))) /\
    ((inject_Z 1000 <= value)%Q -> (value < inject_Z 100000)%Q ->
       ((value <= inject_Z 200)%Q /\ divisibleBy10 value ->
        parsePriceGeneric (Some priceStr)
        = Ok (Some (Num.mul value (inject_Z 100000)))) /\
       (~ ((value <= inject_Z 200)%Q /\ divisibleBy10 value) ->
        parsePriceGeneric (Some priceStr) = Ok (Some value))) /\
    ((inject_Z 500000000 < value)%Q ->
       parsePriceGeneric (Some priceStr) = Ok None) /\
    ((inject_Z 100000 <= value)%Q -> (value <= inject_Z 500000000)%Q ->
       parsePriceGeneric (Some priceStr) = Ok (Some value)).
Proof.
  intros priceStr value Hv.
  rewrite (parsePriceGeneric_value _ Hv). clear Hv. unfold Num.ofZ, lakh.
  pose proof (looksLikeLakhs_spec value) as HL.
  repeat split; intros; order_cases;
    try reflexivity; try (exfalso; unfold inject_Z in *; lra).
  all: destruct (looksLikeLakhs value); try reflexivity; exfalso;
    match goal with
    | H : ~ _ |- _ => apply H, HL; reflexivity
    | H : _ /\ _ |- _ => apply HL in H; discriminate
    end.
Qed.

Lemma parsePriceGeneric_bands_witness :
  Num.parseFloat (keep isDigitOrDot "850 Lakhs") = Some (inject_Z 850) /\
  parsePriceGeneric (Some "850 Lakhs") = Ok (Some (inject_Z 85000000)).
Proof.
  split; [vm_compute; reflexivity|].
  refine (proj1 (proj2 (@parsePriceGeneric_bands "850 Lakhs" (inject_Z 850) _)) _ _);
    vm_compute; congruence.
Defined.

(** C3.  On the text 80 the code answers [null], not 8000000: the guard on
    values below 100 comes before the branch whose comment reads 80 as 80
    lakhs, and that branch starts at 100 (there 800 gives 80000000). *)
Lemma parsePriceGeneric_80 :
  parsePriceGeneric (Some "80") = Ok None /\
  parsePriceGeneric (Some "800") = Ok (Some (inject_Z 80000000)).
Proof. vm_compute. split; reflexivity. Qed.

(* ================================================================== *)
(** ** The extractors return; the Merger *)

Lemma returns_Ok {A} (a : A) : returns (Ok a).
Proof. now exists a. Qed.

Lemma returns_try_catch {A} (body : exc A) handler :
  (forall e, returns (handler e)) -> returns (try_catch body handler).
Proof.
  intros H. destruct body as [a | e]; simpl; [apply returns_Ok | apply H].
Qed.

Lemma returns_bind {A B} (c : exc A) (k : A -> exc B) :
  returns c -> (forall a, returns (k a)) -> returns (bind c k).
Proof. intros [a ->] H. apply H. Qed.

Lemma forEach_returns {A S} (f : S -> A -> exc S) (l : list A) :
  (forall st x, returns (f st x)) -> forall st, returns (forEach f l st).
Proof.
  intros H. induction l as [|x t IH]; intros st; simpl.
  - apply returns_Ok.
  - apply returns_bind; auto.
Qed.

Ltac returns_cases :=
  unfold ret;
  repeat match goal with
         | |- returns (Ok _) => apply returns_Ok
         | |- returns (try_catch _ _) => apply returns_try_catch; intros
         | |- returns (if ?b then _ else _) => destruct b
         | |- returns (match ?x with _ => _ end) => destruct x
         | |- returns (bind _ _) => apply returns_bind; intros
         end.

Lemma extractBHKGeneric_returns configuration : returns (extractBHKGeneric configuration).
Proof.
  unfold extractBHKGeneric.
  destruct configuration as [[|c t]|]; cbn [truthyStr negb recv bind]; returns_cases.
Qed.

Lemma parsePriceGeneric_returns priceStr : returns (parsePriceGeneric priceStr).
Proof. unfold parsePriceGeneric. returns_cases. Qed.

Lemma parseAreaGeneric_returns areaStr : returns (parseAreaGeneric areaStr).
Proof. unfold parseAreaGeneric. returns_cases. Qed.

Lemma parsePossessionGeneric_returns status : returns (parsePossessionGeneric status).
Proof.
  unfold parsePossessionGeneric.
  destruct status as [[|c t]|]; cbn [truthyStr negb recv bind]; returns_cases.
Qed.

Lemma extractLocationGeneric_returns fullAddress projectName :
  returns (extractLocationGeneric fullAddress projectName).
Proof.
  unfold extractLocationGeneric.
  destruct fullAddress as [[|c t]|]; cbn [truthyStr negb recv bind];
    apply returns_Ok.
Qed.

Lemma extractAmenitiesGeneric_returns aboutProperty bhk :
  returns (extractAmenitiesGeneric aboutProperty bhk).
Proof.
  unfold extractAmenitiesGeneric.
  apply returns_bind; [|intros; apply returns_Ok].
  destruct aboutProperty as [[|c t]|]; cbn [truthyStr recv bind]; try apply returns_Ok.
  apply forEach_returns. intros st [amenity keywords]. returns_cases.
Qed.

Lemma extractBuilderGeneric_returns projectName : returns (extractBuilderGeneric projectName).
Proof.
  unfold extractBuilderGeneric.
  destruct projectName as [[|c t]|]; cbn [truthyStr negb recv bind]; apply returns_Ok.
Qed.

Lemma parseReraId_returns reraId : returns (parseReraId reraId).
Proof. unfold parseReraId. returns_cases. Qed.

Lemma parseImages_returns imagesStr : returns (parseImages imagesStr).
Proof. unfold parseImages. returns_cases. Qed.

Lemma createPropertyEntry_returns project config variant address :
  returns (createPropertyEntry project config variant address).
Proof. unfold createPropertyEntry. apply returns_try_catch. intros; apply returns_Ok. Qed.

Lemma created_eq project config variant address :
  createPropertyEntry project config variant address
  = Ok (created project config variant address).
Proof.
  unfold created.
  destruct (createPropertyEntry_returns project config variant address) as [r ->].
  reflexivity.
Qed.

Lemma forEach_created project config address (cv : list VariantRow) :
  forall mergedData,
    forEach (fun mergedData variant =>
               property <- createPropertyEntry project config (Some variant) address ;;
               ret (pushIf mergedData property)) cv mergedData
    = Ok (mergedData
          ++ flat_map (fun v => optList (created project config (Some v) address)) cv).
Proof.
  induction cv as [|v t IH]; intros mergedData; cbn [forEach flat_map].
  - unfold ret. now rewrite app_nil_r.
  - rewrite created_eq. cbn [bind ret]. rewrite IH.
    destruct (created project config (Some v) address); cbn [pushIf optList].
    + now rewrite <- app_assoc.
    + reflexivity.
Qed.

Lemma parsePriceGeneric_null : parsePriceGeneric None = Ok None.
Proof. reflexivity. Qed.

Ltac exc_step H :=
  match type of H with
  | context [bind ?c _] => destruct c eqn:?; cbn [bind] in H
  | context [if ?b then _ else _] => destruct b eqn:?
  end.

Lemma created_fields project config variant address d :
  created project config variant address = Some d ->
  resolved project config variant address = true /\
  id d = orElse (optChain variant v_id) (c_id config) /\
  variantId d = optChain variant v_id /\
  floorPlanImage d = optChain variant v_floorPlanImage /\
  price d = stored (valueOf (parsePriceGeneric (optChain variant v_price))) /\
  area d = stored (valueOf (parseAreaGeneric (optChain variant v_carpetArea))) /\
  nonVariantFields d =
    (p_projectName project, cityOf project address,
     match extractLocationGeneric (optChain address a_fullAddress) (p_projectName project) with
     | Ok location => loc_locality location
     | Throw _ => None
     end,
     stored (valueOf (extractBHKGeneric (c_type config))),
     match parsePossessionGeneric (p_status project) with
     | Ok s => Some s
     | Throw _ => None
     end,
     p_slug project,
     match extractBuilderGeneric (p_projectName project) with
     | Ok s => Some s
     | Throw _ => None
     end,
     (optChain address a_fullAddress, optChain address a_pincode,
      p_projectType project, p_status project,
      valueOf (parseReraId (p_reraId project)), p_id project, c_id config)).
Proof.
  unfold created, createPropertyEntry, resolved, cityOf, valueOf, try_catch.
  intros H.
  repeat exc_step H; try discriminate H.
  unfold ret in H. injection H as <-.
  cbn [nonVariantFields id variantId floorPlanImage price area projectName city locality
       bhk possession slug builder fullAddress pincode projectType status reraId
       projectId configId].
  repeat match goal with H : _ || _ = false |- _ => apply orb_false_iff in H; destruct H end.
  repeat match goal with H : negb _ = false |- _ => apply negb_false_iff in H end.
  repeat split; auto.
  repeat (apply andb_true_iff; split); assumption.
Qed.

Lemma created_resolved project config variant address :
  resolved project config variant address = true ->
  exists d, created project config variant address = Some d.
Proof.
  unfold created, createPropertyEntry, resolved, cityOf, valueOf, try_catch.
  destruct (extractBHKGeneric_returns (c_type config)) as [b ->].
  destruct (parsePriceGeneric_returns (optChain variant v_price)) as [p ->].
  destruct (parseAreaGeneric_returns (optChain variant v_carpetArea)) as [a ->].
  destruct (extractLocationGeneric_returns (optChain address a_fullAddress)
                                           (p_projectName project)) as [l ->].
  cbn [bind]. intros H.
  apply andb_true_iff in H. destruct H as [H Hc].
  apply andb_true_iff in H. destruct H as [H Ha].
  apply andb_true_iff in H. destruct H as [Hb Hp].
  rewrite Hb, Hp, Ha, Hc. cbn [negb orb].
  destruct (parsePossessionGeneric_returns (p_status project)) as [x1 ->].
  destruct (extractAmenitiesGeneric_returns (optChain variant v_aboutProperty) b) as [x2 ->].
  destruct (extractBuilderGeneric_returns (p_projectName project)) as [x3 ->].
  destruct (parseReraId_returns (p_reraId project)) as [x4 ->].
  destruct (parseImages_returns (optChain variant v_propertyImages)) as [x5 ->].
  cbn [bind ret]. eauto.
Qed.

Lemma resolved_without_variant project config address :
  resolved project config None address = false.
Proof.
  unfold resolved. cbn [optChain]. rewrite parsePriceGeneric_null.
  cbn [valueOf Num.truthy]. now rewrite andb_false_r.
Qed.

Lemma created_without_variant project config address :
  created project config None address = None.
Proof.
  destruct (created project config None address) as [d|] eqn:E; [|reflexivity].
  apply created_fields in E. destruct E as [E _].
  rewrite resolved_without_variant in E. discriminate.
Qed.

Lemma created_None_iff project config variant address :
  created project config variant address = None
  <-> resolved project config variant address = false.
Proof.
  split; intros H.
  - destruct (resolved project config variant address) eqn:E; [|reflexivity].
    apply created_resolved in E. destruct E as [d E]. congruence.
  - destruct (created project config variant address) as [d|] eqn:E; [|reflexivity].
    apply created_fields in E. destruct E as [E _]. congruence.
Qed.

Lemma mergeConfig_drafts variants project address mergedData config :
  mergeConfig variants project address mergedData config
  = Ok (mergedData
        ++ flat_map (fun v => optList (created project config (Some v) address))
                    (configVariants variants config)).
Proof.
  unfold mergeConfig.
  destruct (configVariants variants config) as [|v cv] eqn:E.
  - cbn [List.length Nat.eqb flat_map]. rewrite created_eq.
    rewrite created_without_variant. cbn [bind ret pushIf]. now rewrite app_nil_r.
  - cbn [List.length Nat.eqb]. apply forEach_created.
Qed.

Lemma in_drafts project config address cv d :
  In d (flat_map (fun v => optList (created project config (Some v) address)) cv) ->
  exists v, In v cv /\ created project config (Some v) address = Some d.
Proof.
  rewrite in_flat_map. intros [v [Hv Hd]]. exists v. split; [assumption|].
  destruct (created project config (Some v) address) as [d'|]; cbn in Hd.
  - destruct Hd as [->|[]]. reflexivity.
  - destruct Hd.
Qed.

(** C4, as amended.  For every project and matching configuration the Merger
    returns a list of drafts, which holds, in the order of the variant rows
    of the configuration, one draft for each (configuration, variant) pair
    whose bhk, price, area and city all resolve, and nothing else: no draft
    is made of a candidate one of whose four fields does not resolve, so
    none of a configuration with zero variant rows, whose single candidate
    has neither a price nor an area.  A draft carries the ids of its
    variant, configuration and project, and two drafts of the same
    configuration share all their non-variant fields. *)
Theorem mergeConfig_one_draft_per_resolved_variant :
  forall (variants : list VariantRow) (project : ProjectRow)
         (address : option AddressRow) (config : ConfigurationRow),
  exists drafts,
    mergeConfig variants project address [] config = Ok drafts /\
    drafts = flat_map (fun v => optList (created project config (Some v) address))
                      (configVariants variants config) /\
    List.map variantId drafts
    = List.map v_id (List.filter (fun v => resolved project config (Some v) address)
                                 (configVariants variants config)) /\
    (forall v, created project config v address = None
               <-> resolved project config v address = false) /\
    (forall v d, created project config v address = Some d ->
                 variantId d = optChain v v_id /\ configId d = c_id config /\
                 projectId d = p_id project) /\
    (configVariants variants config = [] -> drafts = []) /\
    (forall d1 d2, In d1 drafts -> In d2 drafts ->
                   nonVariantFields d1 = nonVariantFields d2).
Proof.
  intros variants project address config.
  eexists. split; [apply mergeConfig_drafts|]. cbn [app].
  split; [reflexivity|].
  split; [|split; [|split; [|split]]].
  - induction (configVariants variants config) as [|v cv IH]; [reflexivity|].
    cbn [flat_map List.filter].
    destruct (created project config (Some v) address) as [d|] eqn:E.
    + destruct (created_fields _ _ _ _ E) as (-> & _ & Hv & _).
      cbn [optList app List.map]. rewrite Hv, IH. reflexivity.
    + apply created_None_iff in E. rewrite E. exact IH.
  - intros v. apply created_None_iff.
  - intros v d E. destruct (created_fields _ _ _ _ E) as (_ & _ & Hv & _ & _ & _ & Hn).
    unfold nonVariantFields in Hn. injection Hn as _ _ _ _ _ _ _ _ _ _ _ _ Hp Hc.
    auto.
  - intros ->. reflexivity.
  - intros d1 d2 H1 H2.
    apply in_drafts in H1. destruct H1 as [v1 [_ E1]].
    apply in_drafts in H2. destruct H2 as [v2 [_ E2]].
    destruct (created_fields _ _ _ _ E1) as (_ & _ & _ & _ & _ & _ & ->).
    destruct (created_fields _ _ _ _ E2) as (_ & _ & _ & _ & _ & _ & ->).
    reflexivity.
Qed.

(* ================================================================== *)
(** ** [applyFilters] *)

Lemma filter_all {A} (l : list A) : List.filter (fun _ => true) l = l.
Proof. induction l; simpl; congruence. Qed.

Lemma filter_filter {A} (f g : A -> bool) (l : list A) :
  List.filter f (List.filter g l) = List.filter (fun x => g x && f x) l.
Proof.
  induction l as [|x t IH]; [reflexivity|].
  simpl. destruct (g x); simpl; [destruct (f x)|]; congruence.
Qed.

Lemma step_holds {A} (raw key : option A) (active : A -> bool)
      (field : Property -> A -> bool) (l : list Property) :
  key = match raw with Some w => if active w then raw else None | None => None end ->
  match raw with
  | Some wanted => if active wanted then List.filter (fun p => field p wanted) l else l
  | None => l
  end = List.filter (fun p => holds key (field p)) l.
Proof.
  intros ->. destruct raw as [w|]; [destruct (active w)|]; cbn [holds];
    auto using filter_all.
Qed.

Lemma byCity_filter f l :
  byCity f l = List.filter (fun p => holds (textKey (Filters.city f)) (containsCI (city p))) l.
Proof.
  unfold byCity. apply step_holds with (field := fun p => containsCI (city p)).
  unfold textKey. now destruct (Filters.city f).
Qed.

Lemma byBhk_filter f l :
  byBhk f l = List.filter (fun p => holds (numberKey (Filters.bhk f)) (sameNumber (bhk p))) l.
Proof.
  unfold byBhk. apply step_holds with (field := fun p => sameNumber (bhk p)).
  unfold numberKey. now destruct (Filters.bhk f).
Qed.

Lemma byMaxPrice_filter f l :
  byMaxPrice f l
  = List.filter (fun p => holds (numberKey (Filters.maxPrice f)) (atMost (price p))) l.
Proof.
  unfold byMaxPrice. apply step_holds with (field := fun p => atMost (price p)).
  unfold numberKey. now destruct (Filters.maxPrice f).
Qed.

Lemma byLocality_filter f l :
  byLocality f l
  = List.filter (fun p => holds (labelKey (Filters.locality f)) (containsCI (locality p))) l.
Proof.
  unfold byLocality. apply step_holds with (field := fun p => containsCI (locality p)).
  unfold labelKey. now destruct (Filters.locality f).
Qed.

Lemma byPossession_filter f l :
  byPossession f l
  = List.filter (fun p => holds (labelKey (Filters.possession f))
                                (containsCI (possession p))) l.
Proof.
  unfold byPossession. apply step_holds with (field := fun p => containsCI (possession p)).
  unfold labelKey. now destruct (Filters.possession f).
Qed.

Lemma applyFilters_satisfies f l : applyFilters f l = List.filter (satisfies f) l.
Proof.
  unfold applyFilters.
  rewrite byPossession_filter, byLocality_filter, byMaxPrice_filter, byBhk_filter,
    byCity_filter.
  rewrite !filter_filter. apply filter_ext. intros p. unfold satisfies.
  now rewrite !andb_assoc.
Qed.

(** [s.includes(sub)] holds exactly when [sub] is a substring of [s]. *)
Lemma prefix_app (a b : string) :
  prefix a b = true <-> exists post, b = (a ++ post)%string.
Proof.
  revert b. induction a as [|c a IH]; intros b.
  - destruct b; simpl; split; eauto.
  - destruct b as [|d b]; simpl.
    + split; [discriminate|]. intros [post H]. discriminate.
    + destruct (ascii_dec c d) as [->|Hn].
      * rewrite IH. split; intros [post H]; exists post; congruence.
      * split; [discriminate|]. intros [post H]. congruence.
Qed.

Lemma includes_substring (sub s : string) :
  Str.includes sub s = true <-> exists pre post, s = (pre ++ sub ++ post)%string.
Proof.
  induction s as [|c s IH]; cbn [Str.includes]; rewrite orb_true_iff, prefix_app.
  - split.
    + intros [[post H]|H]; [|discriminate]. exists EmptyString, post. exact H.
    + intros [pre [post H]]. left. destruct pre; [eauto|discriminate].
  - rewrite IH. split.
    + intros [[post H]|[pre [post H]]].
      * exists EmptyString, post. exact H.
      * exists (String c pre), post. simpl. congruence.
    + intros [[|d pre] [post H]].
      * left. eauto.
      * right. simpl in H. injection H as _ H. eauto.
Qed.

(** C5, as amended.  [applyFilters] keeps, in order, the entries that pass
    the conjunction of the predicates of the keys that constrain: a key
    constrains when it is present with a truthy value and, for locality and
    possession, a value other than the text null.  The predicates are a
    case-insensitive substring match for city, locality and possession,
    numeric equality for bhk, and price at most maxPrice, where the
    comparison of the code counts a [null] price as 0 and fails on an entry
    without a price.
    Every other key imposes no constraint.  On the two entries of Pune and
    Mumbai, the filter with the city pune alone returns exactly the first;
    a budget of 10000000 keeps the first, and a copy of it whose price is
    [null], and drops the second and a copy without a price. *)
Theorem applyFilters_conjunction :
  (forall (filters : Filters.t) (properties : list Property),
      applyFilters filters properties = List.filter (satisfies filters) properties) /\
  (forall (field : option string) (wanted : string),
      containsCI field wanted = true <->
      exists s pre post, field = Some s /\ s <> EmptyString /\
        Str.toLowerCase s = (pre ++ Str.toLowerCase wanted ++ post)%string) /\
  (forall (field : numeric) (wanted : number),
      (sameNumber field wanted = true <-> exists q, field = Value q /\ (q == wanted)%Q) /\
      (atMost field wanted = true <->
       (exists q, field = Value q /\ (q <= wanted)%Q) \/
       (field = Null /\ (0 <= wanted)%Q))) /\
  applyFilters
    {| Filters.city := Some "pune"; Filters.bhk := None; Filters.maxPrice := None;
       Filters.locality := None; Filters.possession := None; Filters.amenities := None |}
    [entry "Pune" 2 9000000; entry "Mumbai" 3 15000000]
  = [entry "Pune" 2 9000000] /\
  applyFilters
    {| Filters.city := None; Filters.bhk := None;
       Filters.maxPrice := Some (inject_Z 10000000);
       Filters.locality := None; Filters.possession := None; Filters.amenities := None |}
    [entry "Pune" 2 9000000; entry "Mumbai" 3 15000000;
     withPrice Null (entry "Pune" 2 9000000);
     withPrice Undefined (entry "Pune" 2 9000000)]
  = [entry "Pune" 2 9000000; withPrice Null (entry "Pune" 2 9000000)].
Proof.
  split; [exact applyFilters_satisfies|].
  split; [|split; [|split; vm_compute; reflexivity]].
  - intros field wanted. unfold containsCI. destruct field as [s|].
    + rewrite andb_true_iff, includes_substring. split.
      * intros [Ht [pre [post H]]]. exists s, pre, post. repeat split; auto.
        intros ->. discriminate.
      * intros (s' & pre & post & E & Hs & H). injection E as <-.
        split; [destruct s; [contradiction|reflexivity]|eauto].
    + split; [discriminate|]. intros (s & _ & _ & E & _). discriminate.
  - intros field wanted. unfold sameNumber, atMost.
    destruct field as [| |q].
    + split; split; try discriminate.
      * intros (q & E & _). discriminate.
      * intros [(q & E & _)|[E _]]; discriminate.
    + rewrite num_leb_le. split; split; try discriminate.
      * intros (q & E & _). discriminate.
      * intros H. right. split; [reflexivity|exact H].
      * intros [(q & E & _)|[_ H]]; [discriminate|exact H].
    + rewrite num_eqb_eq, num_leb_le. split; split.
      * intros H. eauto.
      * intros (q' & E & H). now injection E as <-.
      * intros H. left. eauto.
      * intros [(q' & E & H)|[E _]]; [now injection E as <-|discriminate].
Qed.

(** Against C5 as stated: the key locality is present with the text null, no
    locality contains that text, and yet the entry comes back; likewise for
    the key bhk present with 0 on an entry of two bedrooms. *)
Lemma applyFilters_ignores_null_and_zero :
  applyFilters
    {| Filters.city := None; Filters.bhk := None; Filters.maxPrice := None;
       Filters.locality := Some "null"; Filters.possession := None;
       Filters.amenities := None |}
    [withLocality "Wakad" (entry "Pune" 2 9000000)]
  = [withLocality "Wakad" (entry "Pune" 2 9000000)] /\
  containsCI (locality (withLocality "Wakad" (entry "Pune" 2 9000000))) "null" = false /\
  applyFilters
    {| Filters.city := None; Filters.bhk := Some (Num.ofZ 0); Filters.maxPrice := None;
       Filters.locality := None; Filters.possession := None;
       Filters.amenities := None |}
    [entry "Pune" 2 9000000]
  = [entry "Pune" 2 9000000] /\
  sameNumber (bhk (entry "Pune" 2 9000000)) (Num.ofZ 0) = false.
Proof. vm_compute. repeat split; reflexivity. Qed.

(** C6, as amended.  A key that is present with a falsy value (the number 0,
    the empty text), and a locality or possession whose text is null, lifts
    its constraint exactly as an absent key does: the result is that of the
    filter object without these keys, and the step of such a key returns its
    input unchanged. *)
Theorem applyFilters_falsy_key_is_absent :
  forall (filters : Filters.t) (properties : list Property),
    applyFilters filters properties = applyFilters (constrainingKeys filters) properties /\
    (Num.truthy (Filters.bhk filters) = false ->
     byBhk filters properties = properties) /\
    (Num.truthy (Filters.maxPrice filters) = false ->
     byMaxPrice filters properties = properties) /\
    (truthyStr (Filters.city filters) = false ->
     byCity filters properties = properties) /\
    (givenAndNotNull (Filters.locality filters) = false ->
     byLocality filters properties = properties) /\
    (givenAndNotNull (Filters.possession filters) = false ->
     byPossession filters properties = properties).
Proof.
  intros filters properties. split.
  - rewrite !applyFilters_satisfies. apply filter_ext. intros p.
    unfold satisfies, constrainingKeys; cbn.
    unfold textKey, numberKey, labelKey.
    destruct (Filters.city filters) as [[|c t]|], (Filters.bhk filters) as [b|],
      (Filters.maxPrice filters) as [m|], (Filters.locality filters) as [l|],
      (Filters.possession filters) as [q|]; cbn [truthyStr holds];
      repeat match goal with
             | |- context [Num.truthy ?x] => destruct (Num.truthy x) eqn:?
             | |- context [givenAndNotNull ?x] => destruct (givenAndNotNull x) eqn:?
             end; cbn [holds]; try reflexivity; congruence.
  - unfold byBhk, byMaxPrice, byCity, byLocality, byPossession.
    repeat split; intros H;
      match goal with
      | |- match ?x with _ => _ end = _ => destruct x; [rewrite H|]; reflexivity
      end.
Qed.

(** Against C6 as stated: with maxPrice present and 0 the result is that of
    the empty filter object, both entries, although no price is at most 0. *)
Lemma applyFilters_maxPrice_zero :
  applyFilters
    {| Filters.city := None; Filters.bhk := None; Filters.maxPrice := Some (Num.ofZ 0);
       Filters.locality := None; Filters.possession := None; Filters.amenities := None |}
    [entry "Pune" 2 9000000; entry "Mumbai" 3 15000000]
  = applyFilters Filters.empty [entry "Pune" 2 9000000; entry "Mumbai" 3 15000000] /\
  applyFilters Filters.empty [entry "Pune" 2 9000000; entry "Mumbai" 3 15000000]
  = [entry "Pune" 2 9000000; entry "Mumbai" 3 15000000] /\
  List.filter (fun p => atMost (price p) (Num.ofZ 0))
              [entry "Pune" 2 9000000; entry "Mumbai" 3 15000000] = [].
Proof. vm_compute. repeat split; reflexivity. Qed.

Lemma isFilter_commute s1 s2 l :
  isFilter s1 -> isFilter s2 -> s2 (s1 l) = s1 (s2 l).
Proof.
  intros [f Hf] [g Hg]. rewrite !Hf, !Hg, !filter_filter.
  apply filter_ext. intros x. apply andb_comm.
Qed.

Lemma filterSteps_isFilter f : Forall isFilter (filterSteps f).
Proof.
  unfold filterSteps. repeat constructor; eexists; intros l.
  - apply byCity_filter.
  - apply byBhk_filter.
  - apply byMaxPrice_filter.
  - apply byLocality_filter.
  - apply byPossession_filter.
Qed.

Lemma runSteps_permutation steps steps' :
  Permutation steps steps' -> Forall isFilter steps ->
  forall l, runSteps steps l = runSteps steps' l.
Proof.
  induction 1 as [|s a b Hp IH|s1 s2 a|a b c H1 IH1 H2 IH2]; intros HF l.
  - reflexivity.
  - inversion HF; subst. cbn. apply IH. assumption.
  - inversion HF as [|? ? F2 HF']; subst. inversion HF' as [|? ? F1 _]; subst.
    cbn. f_equal. apply isFilter_commute; assumption.
  - rewrite IH1 by assumption. apply IH2.
    eapply Permutation_Forall; eassumption.
Qed.

(** C7.  For every collection and every filter object, the five per-key
    steps of [applyFilters] run in any order give the result of
    [applyFilters]. *)
Theorem applyFilters_any_order :
  forall (filters : Filters.t) (steps : list (list Property -> list Property))
         (properties : list Property),
    Permutation steps (filterSteps filters) ->
    runSteps steps properties = applyFilters filters properties.
Proof.
  intros filters steps properties HP.
  change (applyFilters filters properties) with (runSteps (filterSteps filters) properties).
  symmetry. apply runSteps_permutation.
  - apply Permutation_sym. assumption.
  - apply filterSteps_isFilter.
Qed.

Lemma applyFilters_any_order_witness :
  Permutation (List.rev (filterSteps sampleFilters)) (filterSteps sampleFilters) /\
  runSteps (List.rev (filterSteps sampleFilters))
           [entry "Pune" 2 9000000; entry "Mumbai" 3 15000000]
  = applyFilters sampleFilters [entry "Pune" 2 9000000; entry "Mumbai" 3 15000000].
Proof.
  assert (Permutation (List.rev (filterSteps sampleFilters)) (filterSteps sampleFilters)) as HP
    by (apply Permutation_sym, Permutation_rev).
  split; [exact HP|].
  apply (applyFilters_any_order
           [entry "Pune" 2 9000000; entry "Mumbai" 3 15000000] HP).
Defined.

(* ================================================================== *)
(** ** The Merger as a whole, the Fallback Parser, the extractors, [extractFilters] *)

Lemma forEach_append {A B} (f : list B -> A -> exc (list B)) (g : A -> list B) :
  (forall acc x, f acc x = Ok (acc ++ g x)) ->
  forall l acc, forEach f l acc = Ok (acc ++ flat_map g l).
Proof.
  intros H. induction l as [|x t IH]; intros acc; cbn [forEach flat_map].
  - unfold ret. now rewrite app_nil_r.
  - rewrite H. cbn [bind]. rewrite IH. now rewrite app_assoc.
Qed.

(** The drafts of the Merger, before the Validator. *)
Lemma mergeDrafts_flat_map projects addresses configurations variants :
  mergeDrafts projects addresses configurations variants
  = Ok (flat_map
          (fun project =>
             flat_map
               (fun config =>
                  flat_map
                    (fun v => optList (created project config (Some v)
                                               (addressOf addresses project)))
                    (configVariants variants config))
               (projectConfigs configurations project))
          projects).
Proof.
  unfold mergeDrafts.
  rewrite forEach_append with
    (g := fun project =>
            flat_map
              (fun config =>
                 flat_map
                   (fun v => optList (created project config (Some v)
                                              (addressOf addresses project)))
                   (configVariants variants config))
              (projectConfigs configurations project)).
  - reflexivity.
  - intros acc project. unfold mergeProject.
    apply forEach_append. intros acc' config. apply mergeConfig_drafts.
Qed.

(** The collection [mergeData] returns meets the invariant of C1. *)
Lemma mergeData_invariant projects addresses configurations variants :
  exists validProperties,
    mergeData projects addresses configurations variants = Ok validProperties /\
    Forall meetsInvariant validProperties.
Proof.
  unfold mergeData. rewrite mergeDrafts_flat_map. cbn [bind ret].
  eexists. split; [reflexivity|].
  apply Forall_forall. intros p Hp.
  apply filter_In in Hp. destruct Hp as [_ Hp].
  apply isValidProperty_invariant in Hp. tauto.
Qed.

(** Against C4 as stated: the sample configuration without variant rows
    yields no draft, not one with its variantId unset; neither does the
    configuration with a single variant priced 50.  Of three variants, the
    first and the third resolve and are the two drafts. *)
Lemma mergeConfig_without_variants :
  configVariants [] sampleConfig = [] /\
  mergeConfig [] sampleProject (Some sampleAddress) [] sampleConfig = Ok [] /\
  configVariants [sampleVariant "v1" "50"] sampleConfig = [sampleVariant "v1" "50"] /\
  mergeConfig [sampleVariant "v1" "50"] sampleProject (Some sampleAddress) [] sampleConfig
  = Ok [] /\
  List.map variantId
    ((fun c => match c with Ok l => l | Throw _ => [] end) (mergeConfig [sampleVariant "v1" "9000000"; sampleVariant "v2" "50";
                                sampleVariant "v3" "12000000"]
                               sampleProject (Some sampleAddress) [] sampleConfig))
  = [Some "v1"; Some "v3"].
Proof. vm_compute. repeat split; reflexivity. Qed.

(** C8.  The Fallback Parser reads the city pune, 3 bedrooms and a budget of
    12000000 off the message, and sets no other key; a budget in lakhs is
    multiplied by 100000, one in crores by 10000000.  The product is the one
    of the code, in binary64: 1.2 crore comes out as 12000000, while 0.57
    crore comes out as 5699999.999999999, the binary64 value next below
    5700000. *)
Theorem enhancedFilterExtraction_example :
  enhancedFilterExtraction "3BHK in Pune under 1.2 Cr"
  = {| Filters.city := Some "pune"; Filters.bhk := Some (inject_Z 3);
       Filters.maxPrice := Some (inject_Z 12000000);
       Filters.locality := None; Filters.possession := None;
       Filters.amenities := None |} /\
  Filters.maxPrice (enhancedFilterExtraction "flat under 80 lakh")
  = Some (inject_Z 8000000) /\
  Filters.maxPrice (enhancedFilterExtraction "under 0.57 cr")
  = Some (6120328396799999 # 1073741824)%Q /\
  ((6120328396799999 # 1073741824) == inject_Z 5700000 - (1 # 1073741824))%Q /\
  (forall amount : number,
      toRupees amount "cr" = Num.mul amount (inject_Z 10000000) /\
      toRupees amount "crore" = Num.mul amount (inject_Z 10000000) /\
      toRupees amount "lakh" = Num.mul amount (inject_Z 100000) /\
      toRupees amount "lac" = Num.mul amount (inject_Z 100000)).
Proof.
  split; [vm_compute; reflexivity|].
  split; [vm_compute; reflexivity|].
  split; [vm_compute; reflexivity|].
  split; [reflexivity|].
  intros amount. repeat split.
Qed.

Lemma take_nonempty (n : nat) (s : string) :
  0 < n -> s <> EmptyString -> Str.take n s <> EmptyString.
Proof.
  destruct n as [|n], s as [|c t]; intros Hn Hs; try lia; try congruence.
  cbn. discriminate.
Qed.

(** A quantifier [{min,}] over a character class hands over to what follows
    it only after at least [min] characters. *)
Lemma rmatch_repeat_class ic negated items (k : mstate -> option mstate) min x z :
  rmatch ic (Repeat min None (Class negated items)) k x = Some z ->
  exists y, k y = Some z /\ length (rest y) + min <= length (rest x).
Proof.
  cbn [rmatch groups].
  assert (min <= min + length (rest x)) as Hn by lia.
  revert Hn. generalize (min + length (rest x)) as n.
  intros n. revert min x.
  induction n as [|n IH]; intros min x Hn H.
  - exists x. split; [exact H|]. lia.
  - destruct min as [|min']; cbn [Nat.eqb andb clearCaps rest step pred] in H;
      destruct (rest x) as [|a t] eqn:Ex.
    + exists x. split; [exact H|]. rewrite ?Ex. cbn [length]. lia.
    + destruct (xorb negated (classHas ic items a)).
      * destruct (length t =? length (String a t)) eqn:El.
        { exists x. split; [exact H|]. rewrite ?Ex. cbn [length]. lia. }
        match type of H with
        | match ?c with _ => _ end = _ => destruct c as [z'|] eqn:Ec
        end.
        { injection H as <-. apply IH in Ec; [|lia].
          destruct Ec as [y [Hk Hl]]. exists y. split; [exact Hk|].
          cbn [rest step length] in Hl |- *. lia. }
        { exists x. split; [exact H|]. rewrite ?Ex. cbn [length]. lia. }
      * exists x. split; [exact H|]. rewrite ?Ex. cbn [length]. lia.
    + discriminate H.
    + destruct (xorb negated (classHas ic items a)); [|discriminate H].
      apply IH in H; [|lia].
      destruct H as [y [Hk Hl]]. exists y. split; [exact Hk|].
      cbn [rest step length] in Hl |- *. lia.
Qed.

(** A match of [quoted], at any position, sets group 1, to a text that is
    not empty. *)
Lemma matchAt_quoted pv s y :
  matchAt false (source quoted) pv s = Some y ->
  exists g, capture 1 (caps y) = Some g /\ g <> EmptyString.
Proof.
  unfold matchAt, quoted. cbn [source seqs rmatch rest].
  destruct s as [|a t]; [discriminate|].
  destruct (xorb false _); [|discriminate].
  intros H. apply rmatch_repeat_class in H.
  destruct H as [y1 [Hk Hl]].
  cbn [rest step setCap rmatch] in Hk, Hl.
  destruct (rest y1) as [|b u] eqn:Ey; [discriminate Hk|].
  destruct (xorb false _); [|discriminate Hk].
  injection Hk as <-. cbn [caps step setCap capture Nat.eqb].
  eexists. split; [reflexivity|].
  cbn [length] in Hl. apply take_nonempty; [lia|].
  destruct t; [cbn [length] in Hl; lia|discriminate].
Qed.

(** The captures of [exec] are those of the attempt that matched. *)
Lemma execFrom_matchAt p s :
  forall seen i m, execFrom p seen s i = Some m ->
  exists pv s' y, matchAt (flagI p) (source p) pv s' = Some y /\ captures m = caps y.
Proof.
  induction s as [|c t IH]; intros seen i m H; cbn [execFrom] in H.
  - destruct (matchAt _ _ _ _) as [y|] eqn:E; [|discriminate].
    injection H as <-. cbn [captures]. eauto.
  - destruct (matchAt _ _ _ _) as [y|] eqn:E.
    + injection H as <-. cbn [captures]. eauto.
    + eapply IH. exact H.
Qed.

(** When [quoted] matches, [match[1]] is a text, and not the empty one. *)
Lemma exec_quoted_group s m :
  exec quoted s = Some m -> exists g, group 1 m = Some g /\ g <> EmptyString.
Proof.
  intros H. apply execFrom_matchAt in H. destruct H as (pv & s' & y & Hm & Hc).
  unfold group. rewrite Hc. eapply matchAt_quoted. exact Hm.
Qed.

(** C9, as amended.  On every input, a text or [null], none of
    [parsePriceGeneric], [parseAreaGeneric], [extractBHKGeneric],
    [parsePossessionGeneric], [extractLocationGeneric], [parseReraId] and
    [parseImages] throws.  [parseReraId] returns [null] on a [null] or empty
    input and on no other; when a quoted text is found it returns that text,
    which is not empty, and when none is found, its input unchanged;
    [parseImages] returns the empty list on a [null] or empty input, when no
    bracketed text is found, and when [JSON.parse] throws on the one found. *)
Theorem extractors_never_throw :
  forall (input other : option string),
    returns (parsePriceGeneric input) /\
    returns (parseAreaGeneric input) /\
    returns (extractBHKGeneric input) /\
    returns (parsePossessionGeneric input) /\
    returns (extractLocationGeneric input other) /\
    returns (parseReraId input) /\
    returns (parseImages input) /\
    (parseReraId input = Ok None <-> truthyStr input = false) /\
    (forall s, input = Some s -> truthyStr input = true ->
               exec quoted s = None -> parseReraId input = Ok (Some s)) /\
    (forall s m, input = Some s -> truthyStr input = true ->
                 exec quoted s = Some m ->
                 exists g, group 1 m = Some g /\ g <> EmptyString /\
                           parseReraId input = Ok (Some g)) /\
    (truthyStr input = false -> parseImages input = Ok (Json.Array [])) /\
    (forall s, input = Some s -> exec bracketed s = None ->
               parseImages input = Ok (Json.Array [])) /\
    (forall s m e, input = Some s -> exec bracketed s = Some m ->
                   Json.parse (found m) = Throw e ->
                   parseImages input = Ok (Json.Array [])).
Proof.
  intros input other.
  repeat match goal with |- _ /\ _ => split end.
  - apply parsePriceGeneric_returns.
  - apply parseAreaGeneric_returns.
  - apply extractBHKGeneric_returns.
  - apply parsePossessionGeneric_returns.
  - apply extractLocationGeneric_returns.
  - apply parseReraId_returns.
  - apply parseImages_returns.
  - split.
    + unfold parseReraId. destruct (truthyStr input) eqn:Ht; [|reflexivity].
      destruct input as [s|]; [|discriminate Ht].
      cbn [negb recv bind try_catch].
      destruct (exec quoted s) as [m|] eqn:Hm; [|discriminate].
      destruct (exec_quoted_group _ Hm) as (g & -> & _). discriminate.
    + intros H. unfold parseReraId. now rewrite H.
  - intros s -> Ht Hm. unfold parseReraId. rewrite Ht.
    cbn [negb recv bind try_catch]. now rewrite Hm.
  - intros s m -> Ht Hm. unfold parseReraId. rewrite Ht.
    cbn [negb recv bind try_catch]. rewrite Hm.
    destruct (exec_quoted_group _ Hm) as (g & Hg & Hne).
    exists g. rewrite Hg. auto.
  - intros H. unfold parseImages. now rewrite H.
  - intros s -> Hm. unfold parseImages.
    destruct (truthyStr (Some s)); [|reflexivity].
    cbn [negb recv bind try_catch]. now rewrite Hm.
  - intros s m e -> Hm Hp. unfold parseImages.
    destruct (truthyStr (Some s)); [|reflexivity].
    cbn [negb recv bind try_catch]. now rewrite Hm, Hp.
Qed.

Lemma parseImages_examples :
  parseImages (Some "[oops]") = Ok (Json.Array []) /\
  parseImages (Some "no list here") = Ok (Json.Array []) /\
  parseImages (Some "images: [1, 2] and more")
  = Ok (Json.Array [Json.Number (inject_Z 1); Json.Number (inject_Z 2)]).
Proof. vm_compute. repeat split; reflexivity. Qed.

(** The id of a serialized list comes out of its quotes. *)
Lemma parseReraId_examples :
  parseReraId (Some "['P52100000001']") = Ok (Some "P52100000001") /\
  parseReraId (Some (String Json.dquote ("P521" ++ String Json.dquote EmptyString)))
  = Ok (Some "P521") /\
  parseReraId (Some "''") = Ok (Some "''") /\
  parseReraId (Some EmptyString) = Ok None /\
  parseReraId None = Ok None.
Proof. vm_compute. repeat split; reflexivity. Qed.

(** Against C9 as stated: on an id without quotes the parse fails, and
    [parseReraId] returns the id, not [null]. *)
Lemma parseReraId_unquoted :
  exec quoted "P99000056045" = None /\
  parseReraId (Some "P99000056045") = Ok (Some "P99000056045").
Proof. vm_compute. split; reflexivity. Qed.

Lemma isSpecificQuery_keyword (userMessage keyword : string) :
  In keyword specificKeywords ->
  Str.includes keyword (Str.toLowerCase userMessage) = true ->
  isSpecificQuery userMessage = true.
Proof.
  intros Hin Hinc. unfold isSpecificQuery. apply existsb_exists. eauto.
Qed.

(** C10.  When the lowercased message contains one of the eight keywords,
    [extractFilters] returns the empty filter object and has invoked neither
    the external model nor the Fallback Parser. *)
Theorem extractFilters_specific_query :
  forall (useGroqLLM : string -> exc Filters.t) (userMessage keyword : string),
    In keyword
       ["address of"; "details of"; "information about"; "show me";
        "tell me about"; "where is"; "location of"; "full address of"] ->
    Str.includes keyword (Str.toLowerCase userMessage) = true ->
    extractFilters useGroqLLM userMessage = ([], Filters.empty).
Proof.
  intros useGroqLLM userMessage keyword Hin Hinc.
  unfold extractFilters.
  now rewrite (isSpecificQuery_keyword userMessage Hin Hinc).
Qed.

Lemma extractFilters_specific_query_witness :
  extractFilters (fun message => Ok (enhancedFilterExtraction message))
                 "show me 3BHK in Pune"
  = ([], Filters.empty) /\
  Filters.city (enhancedFilterExtraction "show me 3BHK in Pune") = Some "pune".
Proof.
  split; [|vm_compute; reflexivity].
  apply (@extractFilters_specific_query _ "show me 3BHK in Pune" "show me").
  - simpl. tauto.
  - vm_compute. reflexivity.
Defined.

